(** * Stock-Backtester: the generate / validate / repair loop of [app.py]

    A shallow embedding of [clean_generated_code] and [auto_backtest]
    (src/app.py) together with the properties stated about them.

    Conventions of the model.
    - A Python [str] is a [string], one character per [ascii] (the code
      points below 256).  [str.strip] removes the white space of that
      range; [str.lower] and [str.upper] act on the ASCII letters and
      leave other characters alone.  The four explanation markers are
      plain ASCII, and the results about the sanitizer hold whatever
      counts as white space.
    - A Python [int] is a [Z]; [float] arguments that are only passed on
      to the simulation are rationals.
    - A [dict] used as a name space is a [gmap string pyval].
    - A raised exception is a value of [Exn]: its class name, its text,
      and whether its class derives from [Exception].  [except
      Exception] handles the exceptions that do; [SystemExit],
      [KeyboardInterrupt] and the like pass through it.
    - Executed code acts on the two dicts it is given, the globals and
      the locals; both are created once and shared by every execution of
      a run.
    - [print] calls only write diagnostics and are left out. *)

From Stdlib Require Import ZArith QArith Ascii String DecimalString.
From stdpp Require Import base option list gmap strings.

Local Open Scope string_scope.
Local Open Scope list_scope.

(** ** Python string primitives *)

Module PyStr.

Definition nl_char : ascii := ascii_of_nat 10.
Definition nl : string := String nl_char "".
Definition dquote : string := String (ascii_of_nat 34) "".

(** [s.startswith(p)] *)
Fixpoint startswith (s p : string) : bool :=
  match p with
  | "" => true
  | String b p' =>
      match s with
      | "" => false
      | String a s' => if Ascii.eqb a b then startswith s' p' else false
      end
  end.

(** [s.endswith(p)]: [p] is [s] itself or a suffix of its tail. *)
Fixpoint endswith (s p : string) : bool :=
  String.eqb s p ||
  match s with
  | "" => false
  | String _ s' => endswith s' p
  end.

(** [s[n:]] *)
Fixpoint drop (n : nat) (s : string) : string :=
  match n, s with
  | O, _ => s
  | S _, "" => ""
  | S n', String _ s' => drop n' s'
  end.

(** [s[:n]] for [n >= 0] *)
Fixpoint take (n : nat) (s : string) : string :=
  match n, s with
  | O, _ => ""
  | S _, "" => ""
  | S n', String a s' => String a (take n' s')
  end.

(** [s[:-n]] for [n > 0] *)
Definition drop_last (n : nat) (s : string) : string :=
  take (String.length s - n) s.

(** [p in s] *)
Fixpoint contains (p s : string) : bool :=
  startswith s p ||
  match s with
  | "" => false
  | String _ s' => contains p s'
  end.

Definition lower_char (c : ascii) : ascii :=
  let n := nat_of_ascii c in
  if (65 <=? n)%nat && (n <=? 90)%nat then ascii_of_nat (n + 32) else c.

Definition upper_char (c : ascii) : ascii :=
  let n := nat_of_ascii c in
  if (97 <=? n)%nat && (n <=? 122)%nat then ascii_of_nat (n - 32) else c.

(** [s.lower()], [s.upper()] *)
Fixpoint lower (s : string) : string :=
  match s with
  | "" => ""
  | String c s' => String (lower_char c) (lower s')
  end.

Fixpoint upper (s : string) : string :=
  match s with
  | "" => ""
  | String c s' => String (upper_char c) (upper s')
  end.

(** [s.split('\n')]: never empty, ["".split('\n') = ['']]. *)
Fixpoint split_lines (s : string) : list string :=
  match s with
  | "" => [""]
  | String c s' =>
      if Ascii.eqb c nl_char then "" :: split_lines s'
      else match split_lines s' with
           | l :: ls => String c l :: ls
           | [] => [String c ""]
           end
  end.

(** ['\n'.join(ls)] *)
Fixpoint join_lines (ls : list string) : string :=
  match ls with
  | [] => ""
  | [l] => l
  | l :: ls' => l +:+ nl +:+ join_lines ls'
  end.

(** [c.isspace()] for a code point below 256: tab to carriage return,
    the separators 0x1c-0x1f, the blank, NEL and the no-break space. *)
Definition is_space (c : ascii) : bool :=
  let n := nat_of_ascii c in
  ((9 <=? n)%nat && (n <=? 13)%nat) ||
  ((28 <=? n)%nat && (n <=? 32)%nat) ||
  (n =? 133)%nat || (n =? 160)%nat.

Definition is_empty (s : string) : bool :=
  match s with "" => true | _ => false end.

Fixpoint lstrip (s : string) : string :=
  match s with
  | "" => ""
  | String c s' => if is_space c then lstrip s' else s
  end.

(** The tail is trimmed first; a white-space character in front of an
    all-white tail goes too. *)
Fixpoint rstrip (s : string) : string :=
  match s with
  | "" => ""
  | String c s' =>
      let r := rstrip s' in
      if is_space c && is_empty r then "" else String c r
  end.

(** [s.strip()] *)
Definition strip (s : string) : string := lstrip (rstrip s).

Fixpoint newline_free (p : string) : bool :=
  match p with
  | "" => true
  | String c p' => negb (Ascii.eqb c nl_char) && newline_free p'
  end.

(** [str(n)] for an [int] *)
Definition str_of_Z (n : Z) : string := NilZero.string_of_int (Z.to_int n).

End PyStr.

(** ** The sanitizer, [clean_generated_code] *)

Definition fence_python : string := "```python".
Definition fence : string := "```".

Definition explanation_phrases : list string :=
  ["this code"; "the above"; "explanation:"; "note:"].

(** [any(phrase in line.lower() for phrase in [...])] *)
Definition is_explanation (line : string) : bool :=
  existsb (fun phrase => PyStr.contains phrase (PyStr.lower line))
          explanation_phrases.

(** The [for line in lines] loop with its [break]. *)
Fixpoint cleaned_lines (lines : list string) : list string :=
  match lines with
  | [] => []
  | line :: rest =>
      if is_explanation line then [] else line :: cleaned_lines rest
  end.

Definition clean_generated_code (code_str : string) : string :=
  let code_str :=
    if PyStr.startswith code_str fence_python then PyStr.drop 9 code_str
    else code_str in
  let code_str :=
    if PyStr.startswith code_str fence then PyStr.drop 3 code_str
    else code_str in
  let code_str :=
    if PyStr.endswith code_str fence then PyStr.drop_last 3 code_str
    else code_str in
  let lines := PyStr.split_lines code_str in
  PyStr.strip (PyStr.join_lines (cleaned_lines lines)).

(** ** Python values, exceptions and name spaces *)

(** A raised exception: its class name, [str(e)], and whether the class
    derives from [Exception] ([isinstance(e, Exception)]). *)
Record Exn := mkRaised {
  exc_type : string;
  exc_msg : string;
  is_exception : bool
}.

(** An instance of [Exception]: what [except Exception] catches. *)
Definition mkExn (type msg : string) : Exn := mkRaised type msg true.

(** An exception outside [Exception], such as [SystemExit] or
    [KeyboardInterrupt]. *)
Definition mkSignal (type msg : string) : Exn := mkRaised type msg false.

Inductive result (A : Type) : Type :=
| Ok (a : A)
| Raise (e : Exn).
Arguments Ok {A} a.
Arguments Raise {A} e.

Definition bind {A B} (r : result A) (k : A -> result B) : result B :=
  match r with
  | Ok a => k a
  | Raise e => Raise e
  end.

Notation "'let!' x ':=' r 'in' k" := (bind r (fun x => k))
  (at level 10, x name, r at level 100, k at level 200).

(** *** pandas tables *)

(** Row and column labels: dates or positions, names, and the
    two-level (ticker, field) labels of the downloaded table. *)
Inductive label :=
| LInt (n : Z)
| LStr (s : string)
| LPair (a b : string).

#[global] Instance label_eq_dec : EqDecision label.
Proof. solve_decision. Defined.

Inductive cell :=
| CBool (b : bool)
| CNum (x : Q)
| CNaN.

Definition is_true_cell (c : cell) : bool :=
  match c with
  | CBool true => true
  | _ => false
  end.

(** A [pd.DataFrame]: its two axes and positional access ([.iat[i, j]]),
    meaningful for [i], [j] inside the shape. *)
Record DataFrame := mkDataFrame {
  df_index : list label;
  df_columns : list label;
  df_iat : nat -> nat -> cell
}.

(** [df.shape] *)
Definition shape (df : DataFrame) : nat * nat :=
  (length (df_index df), length (df_columns df)).

Definition nrows (df : DataFrame) : nat := length (df_index df).
Definition ncols (df : DataFrame) : nat := length (df_columns df).

Module Pandas.

(** Position of the first occurrence of a label on an axis. *)
Fixpoint get_loc (l : label) (axis : list label) : option nat :=
  match axis with
  | [] => None
  | l' :: rest =>
      if decide (l = l') then Some O else S <$> get_loc l rest
  end.

Fixpoint is_unique (axis : list label) : bool :=
  match axis with
  | [] => true
  | l :: rest => negb (bool_decide (l ∈ rest)) && is_unique rest
  end.

(** [Index.reindex]: for every target label the source position, if
    any.  An axis equal to its target is taken as it is; otherwise the
    source axis has to be free of duplicates. *)
Definition reindex_axis (axis target : list label)
  : result (list (option nat)) :=
  if decide (axis = target) then Ok (Some <$> seq 0 (length axis))
  else if is_unique axis then Ok ((fun l => get_loc l axis) <$> target)
  else Raise (mkExn "ValueError"
                "cannot reindex on an axis with duplicate labels").

(** [df.reindex(index=.., columns=.., fill_value=..)] *)
Definition reindex (df : DataFrame) (new_index new_columns : list label)
    (fill_value : cell) : result DataFrame :=
  let! cols := reindex_axis (df_columns df) new_columns in
  let! rows := reindex_axis (df_index df) new_index in
  Ok {| df_index := new_index;
        df_columns := new_columns;
        df_iat := fun i j =>
          match rows !! i, cols !! j with
          | Some (Some i'), Some (Some j') => df_iat df i' j'
          | _, _ => fill_value
          end |}.

Definition is_pair (l : label) : bool :=
  match l with LPair _ _ => true | _ => false end.

(** Positions and first-level names of the columns whose second level
    is [key]. *)
Fixpoint level1_matches (key : string) (pos : nat) (cols : list label)
  : list (nat * label) :=
  match cols with
  | [] => []
  | LPair a b :: rest =>
      if String.eqb b key
      then (pos, LStr a) :: level1_matches key (S pos) rest
      else level1_matches key (S pos) rest
  | _ :: rest => level1_matches key (S pos) rest
  end.

(** [df.xs(key, axis=1, level=1)]: the cross-section of a table with
    two-level columns, the selected level dropped. *)
Definition xs_level1 (df : DataFrame) (key : string) : result DataFrame :=
  if negb (forallb is_pair (df_columns df))
  then Raise (mkExn "TypeError" "Index must be a MultiIndex")
  else
    match level1_matches key 0 (df_columns df) with
    | [] => Raise (mkExn "KeyError" ("'" +:+ key +:+ "'"))
    | sel =>
        Ok {| df_index := df_index df;
              df_columns := snd <$> sel;
              df_iat := fun i j =>
                match sel !! j with
                | Some (j', _) => df_iat df i j'
                | None => CNaN
                end |}
    end.

(** [pd.DataFrame(value, index=.., columns=..)] *)
Definition full (value : cell) (index columns : list label) : DataFrame :=
  {| df_index := index; df_columns := columns;
     df_iat := fun _ _ => value |}.

(** [df.iloc[pos] = value]: the whole row at a position is set; a
    position outside the table is an error. *)
Definition iloc_set_row (df : DataFrame) (pos : nat) (value : cell)
  : result DataFrame :=
  if (pos <? nrows df)%nat
  then Ok {| df_index := df_index df;
             df_columns := df_columns df;
             df_iat := fun i j =>
               if (i =? pos)%nat then value else df_iat df i j |}
  else Raise (mkExn "IndexError" "iloc cannot enlarge its target object").

(** Number of [True] cells, row by row. *)
Definition count_true_row (df : DataFrame) (i : nat) : nat :=
  length (List.filter (fun j => is_true_cell (df_iat df i j))
                      (seq 0 (ncols df))).

Definition count_true (df : DataFrame) : nat :=
  sum_list (count_true_row df <$> seq 0 (nrows df)).

End Pandas.

Inductive pyval :=
| VDataFrame (df : DataFrame)
| VModule (name : string)
| VOther (repr : string).

(** [isinstance(v, pd.DataFrame)] *)
Definition as_frame (v : pyval) : option DataFrame :=
  match v with
  | VDataFrame df => Some df
  | _ => None
  end.

Abbreviation Env := (gmap string pyval).

(** Name resolution of code run by [exec(code, globals, locals)]: the
    locals first, then the globals. *)
Definition lookup_name (globals locals : Env) (x : string) : option pyval :=
  match locals !! x with
  | Some v => Some v
  | None => globals !! x
  end.

(** ** The error classifier (the [except] branch, lines 277-287) *)

Inductive ErrorCategory :=
| ShapeMismatch
| IndexingError
| DataUnavailable
| SyntaxError
| Other.

(** The branch taken, and the text assigned to [last_error]. *)
Record ClassifiedError := mkClassified {
  category : ErrorCategory;
  hint_text : string
}.

Definition reindex_line (name : string) : string :=
  name +:+ " = " +:+ name +:+
  ".reindex(index=close.index, columns=close.columns, fill_value=False)".

Definition shape_hint : string :=
  PyStr.nl +:+
  "Ensure entries and exits have same shape as close by adding:" +:+
  PyStr.nl +:+ reindex_line "entries" +:+
  PyStr.nl +:+ reindex_line "exits".

Definition indexing_hint : string :=
  PyStr.nl +:+
  "Avoid using .loc[] with boolean series directly. Use .multiply() method instead for applying conditions across DataFrame.".

Definition ticker_hint : string :=
  PyStr.nl +:+
  "Use '^CRSLDX' for Nifty 500 index data, not other symbols.".

Definition syntax_hint : string :=
  PyStr.nl +:+
  "Check for invalid method calls on literals (e.g., use (100).div() not 100.div()) or use standard operators like / instead of .div()".

Definition classify_error (error_str : string) : ClassifiedError :=
  if PyStr.contains "shape" error_str
     && PyStr.contains "doesn't match" error_str
  then mkClassified ShapeMismatch
         ("Shape mismatch error: " +:+ error_str +:+ shape_hint)
  else if PyStr.contains "KeyError" error_str
          && PyStr.contains "None of" error_str
  then mkClassified IndexingError
         ("Indexing error: " +:+ error_str +:+ indexing_hint)
  else if PyStr.contains "YFPricesMissingError" error_str
          || PyStr.contains "No data found" error_str
  then mkClassified DataUnavailable
         ("Invalid ticker symbol: " +:+ error_str +:+ ticker_hint)
  else if PyStr.contains "SyntaxError" error_str
  then mkClassified SyntaxError
         ("Python syntax error: " +:+ error_str +:+ syntax_hint)
  else mkClassified Other ("Error: " +:+ error_str).

(** ** The validator and automatic shape repair (lines 230-254) *)

Definition shape_eqb (a b : nat * nat) : bool :=
  (fst a =? fst b)%nat && (snd a =? snd b)%nat.

(** [if t.shape != close.shape: t = t.reindex(index=close.index,
    columns=close.columns, fill_value=False)] *)
Definition fix_shape (t close : DataFrame) : result DataFrame :=
  if negb (shape_eqb (shape t) (shape close))
  then Pandas.reindex t (df_index close) (df_columns close) (CBool false)
  else Ok t.

Definition missing_names_error : Exn :=
  mkExn "ValueError"
    "Generated code must define 'close', 'entries', and 'exits' variables".

Definition wrong_type_error (name : string) : Exn :=
  mkExn "ValueError" ("'" +:+ name +:+ "' must be a pandas DataFrame").

Definition validate (env : Env)
  : result (DataFrame * DataFrame * DataFrame) :=
  match env !! "close", env !! "entries", env !! "exits" with
  | Some close, Some entries, Some exits =>
      match as_frame close with
      | None => Raise (wrong_type_error "close")
      | Some close =>
          match as_frame entries with
          | None => Raise (wrong_type_error "entries")
          | Some entries =>
              match as_frame exits with
              | None => Raise (wrong_type_error "exits")
              | Some exits =>
                  let! entries := fix_shape entries close in
                  let! exits := fix_shape exits close in
                  Ok (close, entries, exits)
              end
          end
      end
  | _, _, _ => Raise missing_names_error
  end.

(** ** The name spaces handed to [exec] (lines 184-192) *)

Definition preloaded_globals : Env :=
  {[ "__builtins__" := VModule "builtins";
     "pd" := VModule "pandas";
     "yf" := VModule "yfinance";
     "vbt" := VModule "vectorbt";
     "np" := VModule "numpy" ]}.

Definition initial_env (raw : DataFrame) : Env :=
  {[ "raw" := VDataFrame raw ]}.

(** ** The fallback strategy (the literal [fallback_code], lines 296-303)

    The four statements of the literal, run as [exec] runs them: names
    are resolved in the locals and then in the globals, every assignment
    lands in the locals, and a statement that raises leaves the earlier
    bindings in place. *)

Definition is_pandas (v : pyval) : bool :=
  match v with
  | VModule name => String.eqb name "pandas"
  | _ => false
  end.

Definition name_error (x : string) : Exn :=
  mkExn "NameError" ("name '" +:+ x +:+ "' is not defined").

Definition attribute_error (attr : string) : Exn :=
  mkExn "AttributeError" ("object has no attribute '" +:+ attr +:+ "'").

Definition fallback_exec (globals env : Env) : Env * option Exn :=
  (* close = raw.xs('Close', axis=1, level=1) *)
  match lookup_name globals env "raw" with
  | None => (env, Some (name_error "raw"))
  | Some raw =>
      match as_frame raw with
      | None => (env, Some (attribute_error "xs"))
      | Some raw =>
          match Pandas.xs_level1 raw "Close" with
          | Raise e => (env, Some e)
          | Ok close =>
              let env := <["close" := VDataFrame close]> env in
              (* entries = pd.DataFrame(False, index=.., columns=..) *)
              match lookup_name globals env "pd" with
              | None => (env, Some (name_error "pd"))
              | Some pd =>
                  if negb (is_pandas pd)
                  then (env, Some (attribute_error "DataFrame"))
                  else
                    let entries :=
                      Pandas.full (CBool false)
                        (df_index close) (df_columns close) in
                    let env := <["entries" := VDataFrame entries]> env in
                    (* exits = pd.DataFrame(False, index=.., columns=..) *)
                    let exits :=
                      Pandas.full (CBool false)
                        (df_index close) (df_columns close) in
                    let env := <["exits" := VDataFrame exits]> env in
                    (* entries.iloc[10] = True *)
                    match Pandas.iloc_set_row entries 10 (CBool true) with
                    | Raise e => (env, Some e)
                    | Ok entries =>
                        (<["entries" := VDataFrame entries]> env, None)
                    end
              end
          end
      end
  end.

(** ** The ticker universe (lines 170-173) *)

(** [Series.unique()]: first occurrences, in order. *)
Fixpoint unique_from (seen l : list string) : list string :=
  match l with
  | [] => []
  | x :: rest =>
      if bool_decide (x ∈ seen) then unique_from seen rest
      else x :: unique_from (x :: seen) rest
  end.

(** [sym if sym.endswith('.NS') else f"{sym}.NS"] *)
Definition with_suffix (sym : string) : string :=
  if PyStr.endswith sym ".NS" then sym else sym +:+ ".NS".

(** The [Symbol] column, missing values as [None]:
    [.dropna().astype(str).str.upper().unique()], then the suffix. *)
Definition ticker_universe (symbols : list (option string)) : list string :=
  let raw_syms := unique_from [] (PyStr.upper <$> omap id symbols) in
  with_suffix <$> raw_syms.

(** ** The world around [auto_backtest] *)

(** Arguments of [vbt.Portfolio.from_signals]. *)
Record SimArgs := mkSimArgs {
  sim_close : DataFrame;
  sim_entries : DataFrame;
  sim_exits : DataFrame;
  sim_init_cash : Q;
  sim_fees : Q;
  sim_size : Q;
  sim_size_type : string;
  sim_group_by : list string;
  sim_cash_sharing : bool
}.

(** The collaborators the function calls.  The remote model and the
    executed code may answer differently from one attempt to the next,
    so both are indexed by the attempt.  [exec_generated] is
    [exec(code, globals, locals)]: the globals and the locals as the
    code leaves them (a [dict] is updated in place, also when the code
    raises; an object changed in place is a changed value of the names
    bound to it) and the exception raised, if any.  Any collaborator
    may raise an exception outside [Exception]. *)
Record World (Portfolio : Type) := mkWorld {
  getenv : string -> option string;
  read_csv_symbols : string -> result (list (option string));
  yf_download : list string -> string -> string -> result DataFrame;
  chat_completion : Z -> string -> string -> result string;
  exec_generated : Z -> string -> Env -> Env -> Env * Env * option Exn;
  from_signals : SimArgs -> result Portfolio
}.
Arguments getenv {Portfolio} _ _.
Arguments read_csv_symbols {Portfolio} _ _.
Arguments yf_download {Portfolio} _ _ _ _.
Arguments chat_completion {Portfolio} _ _ _ _.
Arguments exec_generated {Portfolio} _ _ _ _ _.
Arguments from_signals {Portfolio} _ _.

(** How the fallback branch ended. *)
Inductive FallbackStatus :=
| FbReturned
| FbCodeRaised (e : Exn)
| FbNamesMissing
| FbSimulationRaised (e : Exn).

(** What a run does, in order. *)
Inductive Event :=
| EvDownload (tickers : list string)
| EvGenerate (attempt : Z) (prompt : string)
| EvExec (attempt : Z) (code : string) (env_in env_out : Env)
| EvSimulate (args : SimArgs)
| EvFailed (attempt : Z) (e : Exn) (last_error : string)
| EvFallback (env_in env_out : Env) (status : FallbackStatus).

Inductive Outcome (Portfolio : Type) :=
| Returned (pf : option Portfolio)
| Raised (e : Exn).
Arguments Returned {Portfolio} pf.
Arguments Raised {Portfolio} e.

(** [range(lo, hi)] *)
Definition py_range (lo hi : Z) : list Z :=
  (fun i => (lo + Z.of_nat i)%Z) <$> seq 0 (Z.to_nat (hi - lo)).

(** The loop variables that survive an iteration, and the two dicts
    handed to every [exec]. *)
Record LoopState := mkLoopState {
  code_str : option string;
  last_error : string;
  py_globals : Env;
  env : Env
}.

Definition exhausted_error (max_retries : Z) (last_error : string) : Exn :=
  mkExn "RuntimeError"
    ("Failed to generate valid code after " +:+ PyStr.str_of_Z max_retries
     +:+ " attempts." +:+ PyStr.nl +:+ "Last error:" +:+ PyStr.nl
     +:+ last_error).

Section AutoBacktest.

Context {Portfolio : Type}.

(** The fixed instruction block of the prompt (the f-string of lines
    65-164 up to the user strategy); no property depends on its
    wording. *)
Variable prompt_rules : string.
Variable W : World Portfolio.

Variables (user_prompt : string) (total_cash size : Q)
          (period interval : string) (max_retries : Z).

Definition base_prompt : string :=
  prompt_rules +:+ "USER STRATEGY: " +:+ PyStr.dquote +:+ user_prompt
  +:+ PyStr.dquote +:+ PyStr.nl +:+ PyStr.nl
  +:+ "Generate ONLY the code (no explanations, no markdown):".

Definition retry_prompt (attempt : Z) (code last_error : string)
  : string :=
  base_prompt
  +:+ PyStr.nl +:+ "# Previous code:" +:+ PyStr.nl
  +:+ code
  +:+ PyStr.nl +:+ "# Error on attempt "
  +:+ PyStr.str_of_Z (attempt - 1)
  +:+ ":" +:+ PyStr.nl
  +:+ last_error
  +:+ PyStr.nl +:+ "# Please correct and output only corrected code.".

(** The [from_signals] call of both branches. *)
Definition signal_args (close entries exits : DataFrame) : SimArgs :=
  let n_symbols := snd (shape close) in
  {| sim_close := close; sim_entries := entries; sim_exits := exits;
     sim_init_cash := total_cash; sim_fees := 1 # 1000;
     sim_size := size; sim_size_type := "percent";
     sim_group_by := replicate n_symbols "basket";
     sim_cash_sharing := true |}.

(** The body of the [try] (lines 228-273), run on the two dicts. *)
Definition try_attempt (attempt : Z) (code : string) (globals env : Env)
  : list Event * Env * Env * result Portfolio :=
  let '(globals', env', raised) :=
    exec_generated W attempt code globals env in
  let ev := EvExec attempt code env env' in
  match raised with
  | Some e => ([ev], globals', env', Raise e)
  | None =>
      match validate env' with
      | Raise e => ([ev], globals', env', Raise e)
      | Ok (close, entries, exits) =>
          let args := signal_args close entries exits in
          ([ev; EvSimulate args], globals', env', from_signals W args)
      end
  end.

(** What [except Exception] makes of an exception of the inner [try]:
    an instance of [Exception] is caught, and control reaches the
    [raise] behind it; any other exception passes. *)
Definition caught (e : Exn) : result (option Portfolio) :=
  if is_exception e then Ok None else Raise e.

(** The inner [try] of the last attempt (lines 294-332): [Ok (Some pf)]
    is its [return pf]; with [Ok None] control reaches the [raise];
    [Raise e] is an exception its [except Exception] does not catch. *)
Definition try_fallback (globals env : Env)
  : list Event * Env * result (option Portfolio) :=
  let '(env', raised) := fallback_exec globals env in
  match raised with
  | Some e => ([EvFallback env env' (FbCodeRaised e)], env', caught e)
  | None =>
      match env' !! "close", env' !! "entries", env' !! "exits" with
      | Some close, Some entries, Some exits =>
          match as_frame close, as_frame entries, as_frame exits with
          | Some close, Some entries, Some exits =>
              let args := signal_args close entries exits in
              match from_signals W args with
              | Ok pf =>
                  ([EvFallback env env' FbReturned; EvSimulate args],
                   env', Ok (Some pf))
              | Raise e =>
                  ([EvFallback env env' (FbSimulationRaised e);
                    EvSimulate args], env', caught e)
              end
          | _, _, _ =>
              ([EvFallback env env'
                  (FbSimulationRaised (attribute_error "shape"))],
               env', Ok None)
          end
      | _, _, _ => ([EvFallback env env' FbNamesMissing], env', Ok None)
      end
  end.

(** How the function ends after the inner [try]. *)
Definition fallback_outcome (last_error : string)
    (r : result (option Portfolio)) : Outcome Portfolio :=
  match r with
  | Ok (Some pf) => Returned (Some pf)
  | Ok None => Raised (exhausted_error max_retries last_error)
  | Raise e => Raised e
  end.

Inductive Step :=
| Continue (st : LoopState)
| Done (out : Outcome Portfolio).

(** The [except Exception as e] branch (lines 275-338). *)
Definition handle_failure (attempt : Z) (code : string)
    (globals env : Env) (e : Exn) : list Event * Step :=
  let error_str := exc_msg e in
  let last_error := hint_text (classify_error error_str) in
  let failed := EvFailed attempt e last_error in
  if (attempt =? max_retries)%Z then
    let '(evs, env', r) := try_fallback globals env in
    (failed :: evs, Done (fallback_outcome last_error r))
  else
    ([failed], Continue (mkLoopState (Some code) last_error globals env)).

(** One iteration of [for attempt in range(1, max_retries + 1)]. *)
Definition attempt_body (attempt : Z) (st : LoopState)
  : list Event * Step :=
  let prompt :=
    match code_str st with
    | None => base_prompt
    | Some code => retry_prompt attempt code (last_error st)
    end in
  let gen := EvGenerate attempt prompt in
  match chat_completion W attempt "o4-mini" prompt with
  | Raise e => ([gen], Done (Raised e))
  | Ok content =>
      let code := clean_generated_code content in
      let '(evs, globals', env', r) :=
        try_attempt attempt code (py_globals st) (env st) in
      match r with
      | Ok pf => (gen :: evs, Done (Returned (Some pf)))
      | Raise e =>
          if is_exception e then
            let '(evs', step) :=
              handle_failure attempt code globals' env' e in
            (gen :: evs ++ evs', step)
          else (gen :: evs, Done (Raised e))
      end
  end.

(** The loop, and the [return None] after it. *)
Fixpoint run_attempts (attempts : list Z) (st : LoopState)
  : list Event * Outcome Portfolio :=
  match attempts with
  | [] => ([], Returned None)
  | attempt :: rest =>
      let '(evs, step) := attempt_body attempt st in
      match step with
      | Done out => (evs, out)
      | Continue st' =>
          let '(evs', out) := run_attempts rest st' in
          (evs ++ evs', out)
      end
  end.

Definition missing_key_error : Exn :=
  mkExn "ValueError"
    "You must provide an OpenAI API key via OPENAI_API_KEY env var.".

(** [auto_backtest]: the events of the run and how it ends.  The
    [tickers] argument is rebound at line 173 before its first use. *)
Definition auto_backtest (tickers : list string)
  : list Event * Outcome Portfolio :=
  match getenv W "OPENAI_API_KEY" with
  | None => ([], Raised missing_key_error)
  | Some _ =>
      let csv_path := "ind_nifty500list.csv" in
      match read_csv_symbols W csv_path with
      | Raise e => ([], Raised e)
      | Ok symbols =>
          let tickers := ticker_universe symbols in
          match yf_download W tickers period interval with
          | Raise e => ([EvDownload tickers], Raised e)
          | Ok raw =>
              let st :=
                mkLoopState None "" preloaded_globals (initial_env raw) in
              let '(evs, out) :=
                run_attempts (py_range 1 (max_retries + 1)) st in
              (EvDownload tickers :: evs, out)
          end
      end
  end.

End AutoBacktest.

(** ** Statements about the sanitizer *)

(** No fence marker at either end. *)
Definition fence_free (s : string) : Prop :=
  PyStr.startswith s fence = false /\ PyStr.endswith s fence = false.

(** No line carries an explanation marker. *)
Definition prose_free (s : string) : Prop :=
  Forall (fun line => is_explanation line = false) (PyStr.split_lines s).

Definition already_clean (s : string) : Prop :=
  fence_free s /\ prose_free s.

(** The fenced answer followed by a sentence of prose. *)
Definition fenced_with_prose : string :=
  "```python" +:+ PyStr.nl +:+ "entries = x" +:+ PyStr.nl +:+ "```"
  +:+ PyStr.nl +:+ "This code buys low.".

(** A fenced answer behind one blank. *)
Definition padded_fence : string :=
  " ```python" +:+ PyStr.nl +:+ "x = 1".

(** ** Statements about the classifier *)

(** The classifier as a rule table: the conditions in their order, each
    with its category and the text put before and after the message,
    the texts written out as the f-strings of lines 278-285 have
    them. *)
Definition classifier_rules
  : list ((string -> bool) * ErrorCategory * string * string) :=
  [ (fun m => PyStr.contains "shape" m && PyStr.contains "doesn't match" m,
     ShapeMismatch, "Shape mismatch error: ",
     PyStr.nl
     +:+ "Ensure entries and exits have same shape as close by adding:"
     +:+ PyStr.nl
     +:+ "entries = entries.reindex(index=close.index, columns=close.columns, fill_value=False)"
     +:+ PyStr.nl
     +:+ "exits = exits.reindex(index=close.index, columns=close.columns, fill_value=False)");
    (fun m => PyStr.contains "KeyError" m && PyStr.contains "None of" m,
     IndexingError, "Indexing error: ",
     PyStr.nl
     +:+ "Avoid using .loc[] with boolean series directly. Use .multiply() method instead for applying conditions across DataFrame.");
    (fun m => PyStr.contains "YFPricesMissingError" m
              || PyStr.contains "No data found" m,
     DataUnavailable, "Invalid ticker symbol: ",
     PyStr.nl
     +:+ "Use '^CRSLDX' for Nifty 500 index data, not other symbols.");
    (fun m => PyStr.contains "SyntaxError" m,
     SyntaxError, "Python syntax error: ",
     PyStr.nl
     +:+ "Check for invalid method calls on literals (e.g., use (100).div() not 100.div()) or use standard operators like / instead of .div()") ].

(** First matching rule, or the catch-all. *)
Fixpoint first_match
    (rules : list ((string -> bool) * ErrorCategory * string * string))
    (m : string) : ClassifiedError :=
  match rules with
  | [] => mkClassified Other ("Error: " +:+ m)
  | (cond, cat, before, after) :: rest =>
      if cond m then mkClassified cat (before +:+ m +:+ after)
      else first_match rest m
  end.

Definition matches_no_rule (m : string) : Prop :=
  Forall (fun '(cond, _, _, _) => cond m = false) classifier_rules.

(** A message that satisfies every rule at once. *)
Definition adversarial_message : string :=
  "SyntaxError: KeyError None of [Index] No data found: shape (3, 2) doesn't match (3, 5)".

(** ** Statements about the validator *)

Definition unique_axes (t : DataFrame) : Prop :=
  Pandas.is_unique (df_index t) = true
  /\ Pandas.is_unique (df_columns t) = true.

(** What the repair step makes of a table [t]: [t'] has the shape of
    [close]; a table of that shape already is handed on as it is; a
    table of another shape is laid out on the axes of [close], the cell
    under a row and column label being the cell [t] has there, and
    [False] where [t] lacks the label. *)
Definition repaired (t close t' : DataFrame) : Prop :=
  shape t' = shape close
  /\ (shape t = shape close -> t' = t)
  /\ (shape t <> shape close ->
      df_index t' = df_index close
      /\ df_columns t' = df_columns close
      /\ forall i j r c,
           df_index close !! i = Some r ->
           df_columns close !! j = Some c ->
           df_iat t' i j =
             match Pandas.get_loc r (df_index t),
                   Pandas.get_loc c (df_columns t) with
             | Some i', Some j' => df_iat t i' j'
             | _, _ => CBool false
             end).

Module Scenario.

Definition days (n : nat) : list label :=
  (fun i => LInt (Z.of_nat i)) <$> seq 0 n.

Definition price (i j : nat) : cell :=
  CNum (Z.of_nat (100 + 10 * j + i) # 1).

(** Two days of prices for tickers A and B. *)
Definition close_ab : DataFrame :=
  {| df_index := days 2; df_columns := [LStr "A"; LStr "B"];
     df_iat := price |}.

(** Signals for ticker A only: shape (2, 1). *)
Definition entries_a : DataFrame :=
  {| df_index := days 2; df_columns := [LStr "A"];
     df_iat := fun _ _ => CBool true |}.

(** Signals of the right shape with the columns the other way round. *)
Definition exits_ba : DataFrame :=
  {| df_index := days 2; df_columns := [LStr "B"; LStr "A"];
     df_iat := fun _ j => CBool (j =? 0)%nat |}.

(** Signals with ticker A twice: shape (2, 3). *)
Definition entries_aab : DataFrame :=
  {| df_index := days 2; df_columns := [LStr "A"; LStr "A"; LStr "B"];
     df_iat := fun _ _ => CBool true |}.

Definition env_of (close entries exits : DataFrame) : Env :=
  {[ "close" := VDataFrame close;
     "entries" := VDataFrame entries;
     "exits" := VDataFrame exits ]}.

(** The downloaded table: eleven days, the fields Close and Open of
    ticker A.NS and the field Close of ticker B.NS. *)
Definition raw_ab : DataFrame :=
  {| df_index := days 11;
     df_columns :=
       [LPair "A.NS" "Close"; LPair "A.NS" "Open"; LPair "B.NS" "Close"];
     df_iat := price |}.

(** Its cross-section at Close. *)
Definition close_of_raw_ab : DataFrame :=
  {| df_index := days 11;
     df_columns := [LStr "A.NS"; LStr "B.NS"];
     df_iat := fun i j =>
       match [(0, LStr "A.NS"); (2, LStr "B.NS")] !! j with
       | Some (j', _) => price i j'
       | None => CNaN
       end |}.

End Scenario.

(** ** Statements about the retry loop *)

(** Attempt numbers of the generation calls of a trace, in order. *)
Definition generation_attempt (ev : Event) : option Z :=
  match ev with
  | EvGenerate attempt _ => Some attempt
  | _ => None
  end.

Definition gen_attempts (tr : list Event) : list Z :=
  omap generation_attempt tr.

Definition is_fallback (ev : Event) : bool :=
  match ev with
  | EvFallback _ _ _ => true
  | _ => false
  end.






Section LoopTraces.

Context {Portfolio : Type}.
Variable W : World Portfolio.
Variables (total_cash size : Q) (max_retries : Z).

(** The runs of the loop from a given attempt on, with the globals and
    the locals it starts from, as a relation between the events and the
    outcome. *)
Inductive LoopTrace
  : Z -> Env -> Env -> list Event -> Outcome Portfolio -> Prop :=
| lt_exit attempt gl env :
    (max_retries < attempt)%Z ->
    LoopTrace attempt gl env [] (Returned None)
| lt_generation_raised attempt gl env prompt e :
    (attempt <= max_retries)%Z ->
    LoopTrace attempt gl env [EvGenerate attempt prompt] (Raised e)
| lt_returned attempt gl env prompt code evs gl' env' pf :
    (attempt <= max_retries)%Z ->
    try_attempt W total_cash size attempt code gl env
      = (evs, gl', env', Ok pf) ->
    LoopTrace attempt gl env (EvGenerate attempt prompt :: evs)
      (Returned (Some pf))
| lt_passed attempt gl env prompt code evs gl' env' e :
    (attempt <= max_retries)%Z ->
    try_attempt W total_cash size attempt code gl env
      = (evs, gl', env', Raise e) ->
    is_exception e = false ->
    LoopTrace attempt gl env (EvGenerate attempt prompt :: evs) (Raised e)
| lt_retry attempt gl env prompt code evs gl' env' e tr out :
    (attempt < max_retries)%Z ->
    try_attempt W total_cash size attempt code gl env
      = (evs, gl', env', Raise e) ->
    is_exception e = true ->
    LoopTrace (attempt + 1) gl' env' tr out ->
    LoopTrace attempt gl env
      (EvGenerate attempt prompt
         :: evs
         ++ EvFailed attempt e (hint_text (classify_error (exc_msg e)))
         :: tr)
      out
| lt_fallback gl env prompt code evs gl' env' e fbevs env'' r :
    try_attempt W total_cash size max_retries code gl env
      = (evs, gl', env', Raise e) ->
    is_exception e = true ->
    try_fallback W total_cash size gl' env' = (fbevs, env'', r) ->
    LoopTrace max_retries gl env
      (EvGenerate max_retries prompt
         :: evs
         ++ EvFailed max_retries e
              (hint_text (classify_error (exc_msg e)))
         :: fbevs)
      (fallback_outcome max_retries
         (hint_text (classify_error (exc_msg e))) r).

(** The three tables the fallback code binds, and the simulation call
    made on them. *)
Definition fallback_simulation (env_out : Env) (r : result Portfolio)
  : Prop :=
  exists close entries exits,
    env_out !! "close" = Some (VDataFrame close)
    /\ env_out !! "entries" = Some (VDataFrame entries)
    /\ env_out !! "exits" = Some (VDataFrame exits)
    /\ from_signals W (signal_args total_cash size close entries exits) = r.

(** What a fallback status says about the fallback branch, run on the
    globals [gl] and the locals [env_in], and about the way the function
    ends: with the portfolio of the fallback's simulation call; with the
    error [exhausted] when the fallback code, run as [fallback_exec] runs
    it, or that simulation call raised an [Exception] (or a required
    name were absent); or with an exception of theirs that is no
    [Exception]. *)
Definition fallback_status_holds (gl env_in env_out : Env)
    (status : FallbackStatus) (out : Outcome Portfolio)
    (exhausted : Exn) : Prop :=
  match status with
  | FbReturned =>
      fallback_exec gl env_in = (env_out, None)
      /\ exists pf,
           fallback_simulation env_out (Ok pf)
           /\ out = Returned (Some pf)
  | FbCodeRaised fe =>
      fallback_exec gl env_in = (env_out, Some fe)
      /\ out = Raised (if is_exception fe then exhausted else fe)
  | FbNamesMissing =>
      fallback_exec gl env_in = (env_out, None)
      /\ (env_out !! "close" = None \/ env_out !! "entries" = None
          \/ env_out !! "exits" = None)
      /\ out = Raised exhausted
  | FbSimulationRaised fe =>
      fallback_exec gl env_in = (env_out, None)
      /\ fallback_simulation env_out (Raise fe)
      /\ out = Raised (if is_exception fe then exhausted else fe)
  end.

End LoopTraces.

(** ** A small world for concrete runs *)

Module Toy.

Definition stmt_close : string :=
  "close = raw.xs('Close', axis=1, level=1)".
Definition stmt_entries : string :=
  "entries = pd.DataFrame(False, index=close.index, columns=close.columns)".
Definition stmt_exits : string :=
  "exits = pd.DataFrame(False, index=close.index, columns=close.columns)".
Definition stmt_raise : string := "raise ValueError('boom')".
Definition stmt_pass : string := "pass".
Definition stmt_exit : string := "raise SystemExit('bye')".
Definition stmt_unbind_pd : string := "globals()['pd'] = None".

Definition all_false_like (globals env : Env) : result DataFrame :=
  match lookup_name globals env "close" with
  | Some (VDataFrame close) =>
      Ok (Pandas.full (CBool false) (df_index close) (df_columns close))
  | Some _ => Raise (attribute_error "index")
  | None => Raise (name_error "close")
  end.

(** The statements the scenarios use, as Python runs them: the globals
    and the locals they leave, and the exception raised. *)
Definition exec_statement (line : string) (globals env : Env)
  : Env * Env * option Exn :=
  if String.eqb line stmt_close then
    match lookup_name globals env "raw" with
    | Some (VDataFrame raw) =>
        match Pandas.xs_level1 raw "Close" with
        | Ok close => (globals, <["close" := VDataFrame close]> env, None)
        | Raise e => (globals, env, Some e)
        end
    | Some _ => (globals, env, Some (attribute_error "xs"))
    | None => (globals, env, Some (name_error "raw"))
    end
  else if String.eqb line stmt_entries then
    match all_false_like globals env with
    | Ok t => (globals, <["entries" := VDataFrame t]> env, None)
    | Raise e => (globals, env, Some e)
    end
  else if String.eqb line stmt_exits then
    match all_false_like globals env with
    | Ok t => (globals, <["exits" := VDataFrame t]> env, None)
    | Raise e => (globals, env, Some e)
    end
  else if String.eqb line stmt_raise then
    (globals, env, Some (mkExn "ValueError" "boom"))
  else if String.eqb line stmt_exit then
    (globals, env, Some (mkSignal "SystemExit" "bye"))
  else if String.eqb line stmt_unbind_pd then
    (<["pd" := VOther "None"]> globals, env, None)
  else if String.eqb line stmt_pass then (globals, env, None)
  else (globals, env, Some (mkExn "SyntaxError" "invalid syntax")).

Fixpoint exec_lines (lines : list string) (globals env : Env)
  : Env * Env * option Exn :=
  match lines with
  | [] => (globals, env, None)
  | line :: rest =>
      match exec_statement line globals env with
      | (globals', env', None) => exec_lines rest globals' env'
      | stopped => stopped
      end
  end.

Definition exec (attempt : Z) (code : string) (globals env : Env)
  : Env * Env * option Exn :=
  exec_lines (PyStr.split_lines code) globals env.

(** A simulation that reports the number of entry signals. *)
Definition simulate (args : SimArgs) : result nat :=
  Ok (Pandas.count_true (sim_entries args)).

(** API key set, a ticker list with a gap and a repetition, the
    eleven-day price table, and the given answers of the model. *)
Definition world (answers : Z -> result string) : World nat :=
  {| getenv := fun _ => Some "sk-test";
     read_csv_symbols := fun _ => Ok [Some "a"; None; Some "b.ns"; Some "A"];
     yf_download := fun _ _ _ => Ok Scenario.raw_ab;
     chat_completion := fun attempt _ _ => answers attempt;
     exec_generated := exec;
     from_signals := simulate |}.

(** Code that binds the three tables and then fails. *)
Definition code_binds_then_raises : string :=
  stmt_close +:+ PyStr.nl +:+ stmt_entries +:+ PyStr.nl +:+ stmt_exits
  +:+ PyStr.nl +:+ stmt_raise.

(** First that code, afterwards code that binds nothing. *)
Definition answers_leftover (attempt : Z) : result string :=
  if (attempt =? 1)%Z then Ok code_binds_then_raises else Ok stmt_pass.

(** Every answer fails at once. *)
Definition answers_failing (attempt : Z) : result string := Ok stmt_raise.


(** The first answer rebinds the global [pd] and then fails; the later
    answers only fail. *)
Definition answers_unbinding (attempt : Z) : result string :=
  if (attempt =? 1)%Z then Ok (stmt_unbind_pd +:+ PyStr.nl +:+ stmt_raise)
  else Ok stmt_raise.


Definition run_in (w : World nat) (max_retries : Z)
  : list Event * Outcome nat :=
  auto_backtest "" w "buy low" 10000 (1 # 5) "24mo" "1d" max_retries [].

Definition run (answers : Z -> result string) (max_retries : Z)
  : list Event * Outcome nat :=
  auto_backtest "" (world answers) "buy low" 10000 (1 # 5) "24mo" "1d"
    max_retries [].

End Toy.

(** ** Statements about the executor's name space *)




(** ** Further statements *)

(** The first line of a text. *)
Definition first_line (s : string) : string :=
  hd "" (PyStr.split_lines s).

(** A fenced answer: an opening fence line, the body, a closing fence. *)
Definition in_fences (opener body : string) : string :=
  opener +:+ PyStr.nl +:+ body +:+ PyStr.nl +:+ fence.

(** The fault of [Index.reindex] on an axis with repeated labels. *)
Definition duplicate_labels_error : Exn :=
  mkExn "ValueError" "cannot reindex on an axis with duplicate labels".

(** [pd] as the fallback code resolves it: the global binding unless
    the locals rebind the name. *)
Definition resolves_pandas (env : Env) : Prop :=
  match env !! "pd" with
  | Some v => is_pandas v = true
  | None => True
  end.

(** What every call of the simulation is given. *)
Definition sim_args_ok (total_cash size : Q) (args : SimArgs) : Prop :=
  shape (sim_entries args) = shape (sim_close args)
  /\ shape (sim_exits args) = shape (sim_close args)
  /\ sim_init_cash args = total_cash
  /\ sim_fees args = 1 # 1000
  /\ sim_size args = size
  /\ sim_size_type args = "percent"
  /\ sim_group_by args = replicate (ncols (sim_close args)) "basket"
  /\ sim_cash_sharing args = true.

Definition simulation_ok (total_cash size : Q) (ev : Event) : Prop :=
  match ev with
  | EvSimulate args => sim_args_ok total_cash size args
  | _ => True
  end.

(** The code of an execution is a sanitizer output: trimmed, and no
    line of it carries an explanation marker. *)
Definition executes_sanitized (ev : Event) : Prop :=
  match ev with
  | EvExec _ code _ _ => prose_free code /\ PyStr.strip code = code
  | _ => True
  end.

Module Short.

(** A price table of five days. *)
Definition raw_five : DataFrame :=
  {| df_index := Scenario.days 5;
     df_columns := [LPair "A.NS" "Close"; LPair "B.NS" "Close"];
     df_iat := Scenario.price |}.

Definition world : World nat :=
  {| getenv := fun _ => Some "sk-test";
     read_csv_symbols := fun _ => Ok [Some "a"; Some "b"];
     yf_download := fun _ _ _ => Ok raw_five;
     chat_completion := fun _ _ _ => Ok Toy.stmt_raise;
     exec_generated := Toy.exec;
     from_signals := Toy.simulate |}.

(** A world whose model cannot be reached at the second call. *)
Definition world_model_down : World nat :=
  {| getenv := fun _ => Some "sk-test";
     read_csv_symbols := fun _ => Ok [Some "a"; Some "b"];
     yf_download := fun _ _ _ => Ok Scenario.raw_ab;
     chat_completion := fun attempt _ _ =>
       if (attempt =? 1)%Z then Ok Toy.stmt_raise
       else Raise (mkExn "APIConnectionError" "connection refused");
     exec_generated := Toy.exec;
     from_signals := Toy.simulate |}.

End Short.

(** The required-name check of the fallback branch did not fail. *)
Definition fallback_names_found (ev : Event) : Prop :=
  match ev with
  | EvFallback _ _ FbNamesMissing => False
  | _ => True
  end.

Definition index_error : Exn :=
  mkExn "IndexError" "iloc cannot enlarge its target object".

(** The prompts of a trace follow the loop variables: a generation is
    asked with the base prompt while no code has been produced, and with
    the retry prompt built from the last executed code and the last
    classified error afterwards. *)
Fixpoint prompts_follow (prompt_rules user_prompt : string)
    (prev_code : option string) (last_error : string) (tr : list Event)
  : Prop :=
  match tr with
  | [] => True
  | EvGenerate attempt prompt :: rest =>
      prompt = match prev_code with
               | None => base_prompt prompt_rules user_prompt
               | Some code =>
                   retry_prompt prompt_rules user_prompt attempt code
                     last_error
               end
      /\ prompts_follow prompt_rules user_prompt prev_code last_error rest
  | EvExec _ code _ _ :: rest =>
      prompts_follow prompt_rules user_prompt (Some code) last_error rest
  | EvFailed _ e le :: rest =>
      le = hint_text (classify_error (exc_msg e))
      /\ prompts_follow prompt_rules user_prompt prev_code le rest
  | _ :: rest =>
      prompts_follow prompt_rules user_prompt prev_code last_error rest
  end.
(** * Properties *)

(** ** Facts about the string primitives *)

Module PyStrFacts.
Import PyStr.

Lemma app_nil (s : string) : "" +:+ s = s.
Proof. reflexivity. Qed.

Lemma app_cons (c : ascii) (s t : string) :
  String c s +:+ t = String c (s +:+ t).
Proof. reflexivity. Qed.

Lemma app_assoc (a b c : string) : (a +:+ b) +:+ c = a +:+ (b +:+ c).
Proof.
  induction a as [|x a IH]; [done|]. by rewrite !app_cons, IH.
Qed.

Lemma startswith_empty (s : string) : startswith s "" = true.
Proof. by destruct s. Qed.

Lemma startswith_cons (a b : ascii) (s p : string) :
  startswith (String a s) (String b p)
  = if Ascii.eqb a b then startswith s p else false.
Proof. reflexivity. Qed.

Lemma newline_free_cons (b : ascii) (p : string) :
  newline_free (String b p) = true ->
  Ascii.eqb b nl_char = false /\ newline_free p = true.
Proof.
  change (newline_free (String b p))
    with (negb (Ascii.eqb b nl_char) && newline_free p).
  intros [H1 H2]%andb_true_iff. by apply negb_true_iff in H1.
Qed.

Lemma startswith_app_l (s r p : string) :
  startswith s p = true -> startswith (s +:+ r) p = true.
Proof.
  revert s; induction p as [|b p IH]; intros s H; [apply startswith_empty|].
  destruct s as [|a s]; [done|]. rewrite app_cons. simpl in *.
  destruct (Ascii.eqb a b); [by apply IH | done].
Qed.

(** A longer prefix implies the shorter one. *)
Lemma startswith_shorter (s p q : string) :
  startswith s (p +:+ q) = true -> startswith s p = true.
Proof.
  revert s; induction p as [|b p IH]; intros s H; [apply startswith_empty|].
  rewrite app_cons in H.
  destruct s as [|a s]; simpl in *; [done|].
  destruct (Ascii.eqb a b); [by apply IH | done].
Qed.

Lemma contains_empty (s : string) : contains "" s = true.
Proof. destruct s; simpl; by rewrite ?startswith_empty. Qed.

Lemma contains_in_empty (p : string) : contains p "" = true -> p = "".
Proof. by destruct p. Qed.

Lemma contains_unfold (p : string) (c : ascii) (s : string) :
  contains p (String c s) = startswith (String c s) p || contains p s.
Proof. reflexivity. Qed.

Lemma contains_cons (p : string) (c : ascii) (s : string) :
  contains p s = true -> contains p (String c s) = true.
Proof. intros H. simpl. rewrite H. apply orb_true_r. Qed.

Lemma contains_app_r (p a s : string) :
  contains p s = true -> contains p (a +:+ s) = true.
Proof.
  induction a as [|c a IH]; intros H; [done|].
  rewrite app_cons. by apply contains_cons, IH.
Qed.

Lemma contains_app_l (p s b : string) :
  contains p s = true -> contains p (s +:+ b) = true.
Proof.
  induction s as [|c s IH]; intros H.
  - apply contains_in_empty in H as ->. apply contains_empty.
  - rewrite contains_unfold in H. apply orb_true_iff in H as [H|H].
    + rewrite app_cons, contains_unfold, <- app_cons.
      by rewrite (startswith_app_l _ b _ H).
    + rewrite app_cons. by apply contains_cons, IH.
Qed.

Lemma lower_app (a b : string) : lower (a +:+ b) = lower a +:+ lower b.
Proof.
  induction a as [|c a IH]; [done|]. rewrite !app_cons. simpl.
  by rewrite IH.
Qed.

Lemma lower_char_nl (c : ascii) :
  Ascii.eqb (lower_char c) nl_char = Ascii.eqb c nl_char.
Proof.
  destruct c as [[] [] [] [] [] [] [] []]; vm_compute; reflexivity.
Qed.

Lemma split_lines_cons (s : string) :
  exists l ls, split_lines s = l :: ls.
Proof.
  induction s as [|c s (l & ls & IH)]; simpl; [by eauto|].
  destruct (Ascii.eqb c nl_char); [by eauto|]. rewrite IH. by eauto.
Qed.

Lemma join_lines_cons (l l' : string) (ls : list string) :
  join_lines (l :: l' :: ls) = l +:+ nl +:+ join_lines (l' :: ls).
Proof. reflexivity. Qed.

Lemma join_lines_head (c : ascii) (l : string) (ls : list string) :
  join_lines (String c l :: ls) = String c (join_lines (l :: ls)).
Proof. destruct ls; reflexivity. Qed.

(** ['\n'.join(s.split('\n')) == s] *)
Lemma join_split (s : string) : join_lines (split_lines s) = s.
Proof.
  induction s as [|c s IH]; simpl; [done|].
  destruct (Ascii.eqb_spec c nl_char) as [->|Hc].
  - destruct (split_lines_cons s) as (l & ls & Hs).
    rewrite Hs in *. rewrite join_lines_cons, IH. reflexivity.
  - destruct (split_lines_cons s) as (l & ls & Hs).
    rewrite Hs in *. by rewrite join_lines_head, IH.
Qed.

Lemma split_lower (s : string) :
  split_lines (lower s) = lower <$> split_lines s.
Proof.
  induction s as [|c s IH]; simpl; [done|].
  rewrite lower_char_nl, IH.
  destruct (Ascii.eqb c nl_char); [done|].
  by destruct (split_lines s).
Qed.

(** The head line is a prefix of the text, up to the first newline. *)
Lemma head_line_prefix (s l : string) (ls : list string) :
  split_lines s = l :: ls ->
  s = l \/ exists r, s = l +:+ String nl_char r.
Proof.
  intros H. rewrite <- (join_split s), H. destruct ls as [|l' ls].
  - by left.
  - right. exists (join_lines (l' :: ls)). reflexivity.
Qed.

Lemma startswith_before_newline (p l r : string) :
  newline_free p = true ->
  startswith (l +:+ String nl_char r) p = true ->
  startswith l p = true.
Proof.
  revert l; induction p as [|b p IH]; intros l Hp H; [apply startswith_empty|].
  apply newline_free_cons in Hp as [Hb Hp].
  destruct l as [|a l]; rewrite ?app_nil, ?app_cons, startswith_cons in H.
  - by rewrite Ascii.eqb_sym, Hb in H.
  - rewrite startswith_cons. destruct (Ascii.eqb a b); [by apply IH | done].
Qed.

(** An occurrence of a newline-free text lies inside one line. *)
Lemma contains_line (p s : string) :
  newline_free p = true ->
  contains p s = true ->
  Exists (fun l => contains p l = true) (split_lines s).
Proof.
  intros Hp. induction s as [|c s IH]; intros H.
  - apply contains_in_empty in H as ->. by constructor.
  - rewrite contains_unfold in H. simpl split_lines.
    destruct (split_lines_cons s) as (l & ls & Hs).
    apply orb_true_iff in H as [H|H].
    + destruct (Ascii.eqb_spec c nl_char) as [->|Hc].
      * constructor. destruct p as [|b p]; [done|].
        apply newline_free_cons in Hp as [Hb _].
        by rewrite startswith_cons, Ascii.eqb_sym, Hb in H.
      * rewrite Hs. constructor.
        rewrite contains_unfold. apply orb_true_iff; left.
        destruct (head_line_prefix s l ls Hs) as [->|[r ->]]; [done|].
        apply (startswith_before_newline p (String c l) r Hp H).
    + specialize (IH H). rewrite Hs in IH.
      destruct (Ascii.eqb c nl_char).
      * apply Exists_cons_tl. by rewrite Hs.
      * rewrite Hs. apply Exists_cons in IH as [IH|IH].
        -- apply Exists_cons_hd. by apply contains_cons.
        -- by apply Exists_cons_tl.
Qed.

(** A text found in a line is found in the whole. *)
Lemma line_contains (p s : string) :
  Exists (fun l => contains p l = true) (split_lines s) ->
  contains p s = true.
Proof.
  induction s as [|c s IH]; simpl split_lines; intros H.
  - apply Exists_cons in H as [H|H]; [done | by apply Exists_nil in H].
  - destruct (split_lines_cons s) as (l & ls & Hs). rewrite Hs in *.
    destruct (Ascii.eqb c nl_char).
    + apply Exists_cons in H as [H|H].
      * apply contains_in_empty in H as ->. apply contains_empty.
      * by apply contains_cons, IH.
    + apply Exists_cons in H as [H|H].
      * rewrite contains_unfold in H.
        apply orb_true_iff in H as [H|H].
        -- rewrite contains_unfold. apply orb_true_iff; left.
           destruct (head_line_prefix s l ls Hs) as [->|[r ->]]; [done|].
           apply (startswith_app_l (String c l) _ p H).
        -- apply contains_cons, IH. by apply Exists_cons_hd.
      * apply contains_cons, IH. by apply Exists_cons_tl.
Qed.

Lemma lstrip_suffix (s : string) : exists a, s = a +:+ lstrip s.
Proof.
  induction s as [|c s [a IH]]; [by exists ""|]. simpl.
  destruct (is_space c); [|by exists ""].
  exists (String c a). by rewrite app_cons, <- IH.
Qed.

Lemma rstrip_prefix (s : string) : exists b, s = rstrip s +:+ b.
Proof.
  induction s as [|c s [b IH]]; [by exists ""|]. simpl.
  destruct (is_space c && is_empty (rstrip s)).
  - by exists (String c s).
  - exists b. by rewrite app_cons, <- IH.
Qed.

Lemma strip_inside (s : string) : exists a b, s = a +:+ strip s +:+ b.
Proof.
  destruct (rstrip_prefix s) as [b Hb].
  destruct (lstrip_suffix (rstrip s)) as [a Ha].
  exists a, b. unfold strip. by rewrite <- app_assoc, <- Ha.
Qed.

Lemma lstrip_idem (s : string) : lstrip (lstrip s) = lstrip s.
Proof.
  induction s as [|c s IH]; simpl; [done|].
  destruct (is_space c) eqn:E; [done|]. simpl. by rewrite E.
Qed.

Lemma rstrip_cons (c : ascii) (s : string) :
  rstrip (String c s)
  = if is_space c && is_empty (rstrip s) then "" else String c (rstrip s).
Proof. reflexivity. Qed.

Lemma rstrip_idem (s : string) : rstrip (rstrip s) = rstrip s.
Proof.
  induction s as [|c s IH]; [done|]. rewrite rstrip_cons.
  destruct (is_space c && is_empty (rstrip s)) eqn:E; [done|].
  by rewrite rstrip_cons, IH, E.
Qed.

(** Trimming the left end keeps a trimmed right end trimmed. *)
Lemma rstrip_lstrip (s : string) :
  rstrip s = s -> rstrip (lstrip s) = lstrip s.
Proof.
  induction s as [|c s IH]; [done|]. rewrite rstrip_cons.
  simpl lstrip. destruct (is_space c) eqn:E.
  - destruct (is_empty (rstrip s)); [done|].
    intros [= H]. by apply IH.
  - intros H. by rewrite rstrip_cons, E.
Qed.

Lemma strip_idem (s : string) : strip (strip s) = strip s.
Proof.
  unfold strip.
  rewrite (rstrip_lstrip (rstrip s) (rstrip_idem s)).
  apply lstrip_idem.
Qed.

End PyStrFacts.

(** Trimming removes the white space of the whole range, the no-break
    space and NEL included. *)
Example strip_no_break_space :
  PyStr.strip (String (ascii_of_nat 160)
                 ("x = 1" +:+ String (ascii_of_nat 133) PyStr.nl))
  = "x = 1".
Proof. reflexivity. Qed.

(** ** The sanitizer *)

Section Sanitizer.
Import PyStr PyStrFacts.

Lemma phrases_newline_free :
  Forall (fun p => newline_free p = true) explanation_phrases.
Proof. repeat constructor. Qed.

Lemma is_explanation_iff (s : string) :
  is_explanation s = true <->
  exists p, p ∈ explanation_phrases /\ contains p (lower s) = true.
Proof.
  unfold is_explanation. rewrite existsb_exists.
  by setoid_rewrite <- list_elem_of_In.
Qed.

(** A marker sits in some line exactly if it sits in the text. *)
Lemma is_explanation_lines (s : string) :
  is_explanation s = true <->
  Exists (fun line => is_explanation line = true) (split_lines s).
Proof.
  rewrite is_explanation_iff, Exists_exists. split.
  - intros (p & Hp & H).
    assert (newline_free p = true) as Hnl.
    { by apply (proj1 (Forall_forall _ _) phrases_newline_free). }
    apply (contains_line p _ Hnl) in H.
    rewrite split_lower, Exists_fmap, Exists_exists in H.
    destruct H as (line & Hline & H). exists line. split; [done|].
    apply is_explanation_iff. by exists p.
  - intros (line & Hline & H).
    apply is_explanation_iff in H as (p & Hp & H).
    exists p. split; [done|]. apply line_contains.
    rewrite split_lower, Exists_fmap, Exists_exists. by exists line.
Qed.

Lemma prose_free_iff (s : string) :
  prose_free s <-> is_explanation s = false.
Proof.
  unfold prose_free. rewrite <- not_true_iff_false, is_explanation_lines.
  rewrite <- Forall_Exists_neg. apply Forall_iff. intros line.
  by rewrite not_true_iff_false.
Qed.

Lemma is_explanation_inside (a s b : string) :
  is_explanation (a +:+ s +:+ b) = false -> is_explanation s = false.
Proof.
  rewrite <- !not_true_iff_false, !is_explanation_iff.
  intros H (p & Hp & Hs). apply H. exists p. split; [done|].
  rewrite !lower_app. by apply contains_app_r, contains_app_l.
Qed.

Lemma prose_free_strip (s : string) : prose_free s -> prose_free (strip s).
Proof.
  rewrite !prose_free_iff. destruct (strip_inside s) as (a & b & Hs).
  rewrite Hs at 1. apply is_explanation_inside.
Qed.

Lemma cleaned_lines_all (lines : list string) :
  Forall (fun line => is_explanation line = false) lines ->
  cleaned_lines lines = lines.
Proof.
  induction 1 as [|line lines H _ IH]; simpl; [done|]. by rewrite H, IH.
Qed.

(** Without fences and prose only the final [strip] acts. *)
Lemma clean_is_strip (s : string) :
  already_clean s -> clean_generated_code s = strip s.
Proof.
  intros [[Hstart Hend] Hprose]. unfold clean_generated_code.
  assert (startswith s fence_python = false) as ->.
  { apply not_true_iff_false. intros H.
    by rewrite (startswith_shorter s fence "python" H) in Hstart. }
  rewrite Hstart, Hend.
  by rewrite (cleaned_lines_all _ Hprose), join_split.
Qed.

End Sanitizer.

(** C8 (as the code computes it): on the fenced answer followed by the
    sentence "This code buys low." the sanitizer removes the opening
    fence and cuts at the sentence, but the closing fence is not at the
    end of the text when the fences are removed, so its line stays: the
    result is "entries = x", a newline and the three backquotes, which is
    not the text "entries = x". *)
Theorem clean_generated_code_fenced_with_prose :
  clean_generated_code fenced_with_prose
    = "entries = x" +:+ PyStr.nl +:+ "```"
  /\ clean_generated_code fenced_with_prose <> "entries = x".
Proof. split; [reflexivity | discriminate]. Qed.

(** C9 (amended): for every text without a fence marker at either end
    and without an explanation marker in any line, the sanitizer returns
    the text with its leading and trailing white space removed; and
    applying the sanitizer twice equals applying it once whenever the
    trimmed text has no fence marker at either end either. *)
Theorem clean_generated_code_on_clean_input (s : string) :
  already_clean s ->
  clean_generated_code s = PyStr.strip s
  /\ (fence_free (PyStr.strip s) ->
      clean_generated_code (clean_generated_code s)
      = clean_generated_code s).
Proof.
  intros Hs. pose proof (clean_is_strip s Hs) as E. split; [done|].
  intros Hf. rewrite E, clean_is_strip.
  - apply PyStrFacts.strip_idem.
  - split; [done|]. apply prose_free_strip, Hs.
Qed.

Lemma clean_generated_code_on_clean_input_witness :
  already_clean "  x = 1 " /\
  clean_generated_code "  x = 1 " = "x = 1" /\
  clean_generated_code (clean_generated_code "  x = 1 ")
  = clean_generated_code "  x = 1 ".
Proof.
  assert (already_clean "  x = 1 ") as H.
  { split; [split; reflexivity | repeat constructor]. }
  split; [exact H|].
  destruct (clean_generated_code_on_clean_input "  x = 1 " H) as [E1 E2].
  split; [exact E1|]. apply E2. split; reflexivity.
Defined.

(** C9 (as stated) fails: a fenced answer behind a blank is clean in the
    sense of the claim, the first pass only trims the blank, and the
    second pass then finds the fence at the start and removes it. *)
Lemma clean_generated_code_not_idempotent :
  already_clean padded_fence /\
  clean_generated_code padded_fence = PyStr.strip padded_fence /\
  clean_generated_code (clean_generated_code padded_fence)
  <> clean_generated_code padded_fence.
Proof.
  split; [|split].
  - split; [split; reflexivity | repeat constructor].
  - reflexivity.
  - discriminate.
Qed.

(** ** The classifier *)

Lemma classify_error_first_match (m : string) :
  classify_error m = first_match classifier_rules m.
Proof.
  unfold classify_error, classifier_rules, first_match.
  repeat (match goal with |- context [if ?c then _ else _] =>
            destruct c end; try reflexivity).
Qed.

(** C4: the classifier is the rule table read in order, first match
    winning.  Hence every message containing both "shape" and "doesn't
    match" is a ShapeMismatch, whatever else the message contains, and
    its text is the message behind "Shape mismatch error: " and in
    front of the advice to reindex entries and exits on the axes of
    close; a message matching no rule reaches the catch-all, which
    passes the message through behind "Error: ". *)
Theorem classify_error_priority (m : string) :
  classify_error m = first_match classifier_rules m
  /\ (PyStr.contains "shape" m = true ->
      PyStr.contains "doesn't match" m = true ->
      classify_error m
      = mkClassified ShapeMismatch
          ("Shape mismatch error: " +:+ m +:+ PyStr.nl
           +:+ "Ensure entries and exits have same shape as close by adding:"
           +:+ PyStr.nl
           +:+ "entries = entries.reindex(index=close.index, columns=close.columns, fill_value=False)"
           +:+ PyStr.nl
           +:+ "exits = exits.reindex(index=close.index, columns=close.columns, fill_value=False)"))
  /\ (matches_no_rule m ->
      classify_error m = mkClassified Other ("Error: " +:+ m)).
Proof.
  split; [apply classify_error_first_match|]. split.
  - intros H1 H2. unfold classify_error. by rewrite H1, H2.
  - intros H. rewrite classify_error_first_match.
    unfold matches_no_rule, classifier_rules in H.
    repeat (apply Forall_cons in H as [? H]).
    unfold classifier_rules, first_match.
    repeat match goal with E : _ = false |- _ => rewrite E; clear E end.
    reflexivity.
Qed.

Lemma classify_error_priority_witness :
  classify_error adversarial_message
  = mkClassified ShapeMismatch
      ("Shape mismatch error: SyntaxError: KeyError None of [Index] No data found: shape (3, 2) doesn't match (3, 5)"
       +:+ PyStr.nl
       +:+ "Ensure entries and exits have same shape as close by adding:"
       +:+ PyStr.nl
       +:+ "entries = entries.reindex(index=close.index, columns=close.columns, fill_value=False)"
       +:+ PyStr.nl
       +:+ "exits = exits.reindex(index=close.index, columns=close.columns, fill_value=False)")
  /\ PyStr.contains
       "entries = entries.reindex(index=close.index, columns=close.columns, fill_value=False)"
       (hint_text (classify_error adversarial_message)) = true
  /\ PyStr.contains
       "exits = exits.reindex(index=close.index, columns=close.columns, fill_value=False)"
       (hint_text (classify_error adversarial_message)) = true
  /\ classify_error "division by zero"
     = mkClassified Other "Error: division by zero".
Proof.
  destruct (classify_error_priority adversarial_message) as (_ & H & _).
  destruct (classify_error_priority "division by zero") as (_ & _ & H').
  specialize (H eq_refl eq_refl).
  split; [|split; [|split]].
  - rewrite H; reflexivity.
  - rewrite H; reflexivity.
  - rewrite H; reflexivity.
  - apply H'. repeat constructor.
Defined.

(** ** Tables: reindexing and the validator *)

Section PandasFacts.
Import Pandas.

Lemma shape_eqb_eq (a b : nat * nat) : shape_eqb a b = true <-> a = b.
Proof.
  destruct a as [a1 a2], b as [b1 b2]. unfold shape_eqb. simpl.
  rewrite andb_true_iff, !Nat.eqb_eq. split; [by intros [-> ->]|].
  by intros [= -> ->].
Qed.

Lemma get_loc_elem (l : label) (axis : list label) (i : nat) :
  get_loc l axis = Some i -> axis !! i = Some l.
Proof.
  revert i; induction axis as [|l' axis IH]; intros i; simpl; [done|].
  destruct (decide (l = l')) as [->|]; [by intros [= <-]|].
  destruct (get_loc l axis) as [k|]; [|done].
  intros [= <-]. by apply IH.
Qed.

Lemma get_loc_unique (axis : list label) (i : nat) (l : label) :
  is_unique axis = true -> axis !! i = Some l -> get_loc l axis = Some i.
Proof.
  revert i; induction axis as [|l' axis IH]; intros i Hu Hi; [done|].
  simpl in Hu. apply andb_true_iff in Hu as [Hn Hu].
  apply negb_true_iff, bool_decide_eq_false in Hn. simpl.
  destruct i as [|i]; simpl in Hi.
  - injection Hi as ->. by rewrite decide_True.
  - rewrite decide_False.
    + by rewrite (IH i Hu Hi).
    + intros ->. apply Hn. by eapply list_elem_of_lookup_2.
Qed.

(** On an axis without duplicates [Index.reindex] finds, for every
    label of the target, its position on the axis. *)
Lemma reindex_axis_unique (axis target : list label) :
  is_unique axis = true ->
  exists pos,
    reindex_axis axis target = Ok pos
    /\ forall i l, target !! i = Some l -> pos !! i = Some (get_loc l axis).
Proof.
  intros Hu. unfold reindex_axis.
  destruct (decide (axis = target)) as [<-|_].
  - eexists; split; [done|]. intros i l Hi.
    rewrite list_lookup_fmap, lookup_seq_lt.
    + simpl. by rewrite (get_loc_unique axis i l).
    + by eapply lookup_lt_Some.
  - rewrite Hu. eexists; split; [done|]. intros i l Hi.
    by rewrite list_lookup_fmap, Hi.
Qed.

Lemma reindex_unique (t : DataFrame) (index columns : list label)
    (fill : cell) :
  unique_axes t ->
  exists t',
    reindex t index columns fill = Ok t'
    /\ df_index t' = index /\ df_columns t' = columns
    /\ forall i j r c,
         index !! i = Some r -> columns !! j = Some c ->
         df_iat t' i j =
           match get_loc r (df_index t), get_loc c (df_columns t) with
           | Some i', Some j' => df_iat t i' j'
           | _, _ => fill
           end.
Proof.
  intros [Hi Hc]. unfold reindex.
  destruct (reindex_axis_unique _ columns Hc) as (cols & -> & Hcols).
  destruct (reindex_axis_unique _ index Hi) as (rows & -> & Hrows).
  simpl. eexists; split; [done|]. split; [done|]. split; [done|].
  intros i j r c Hr Hcj. simpl.
  rewrite (Hrows i r Hr), (Hcols j c Hcj).
  by destruct (get_loc r (df_index t)), (get_loc c (df_columns t)).
Qed.

Lemma fix_shape_repairs (t close : DataFrame) :
  (shape t <> shape close -> unique_axes t) ->
  exists t', fix_shape t close = Ok t' /\ repaired t close t'.
Proof.
  intros Hu. unfold fix_shape.
  destruct (shape_eqb (shape t) (shape close)) eqn:E; simpl.
  - apply shape_eqb_eq in E. exists t. by repeat split.
  - assert (shape t <> shape close) as Hne.
    { intros H. apply shape_eqb_eq in H. congruence. }
    destruct (reindex_unique t (df_index close) (df_columns close)
                (CBool false) (Hu Hne)) as (t' & -> & Hi & Hc & Hcell).
    exists t'. split; [done|]. split; [|split]; [|done|done].
    unfold shape. by rewrite Hi, Hc.
Qed.

End PandasFacts.

(** C3 (amended): for every post-execution environment in which close,
    entries and exits are DataFrames, and in which a signal table whose
    shape differs from close's has no duplicate row or column labels,
    validation succeeds, close is handed on as it is and both signal
    tables come out with close's shape.  A table whose shape differs is
    reindexed: it gets close's index and columns, a cell whose row and
    column labels the original table has keeps the original value, and
    every other cell is false.  A table whose shape already equals
    close's is handed on unchanged, whatever its labels are. *)
Theorem validate_repairs_shape (env : Env) (close entries exits : DataFrame) :
  env !! "close" = Some (VDataFrame close) ->
  env !! "entries" = Some (VDataFrame entries) ->
  env !! "exits" = Some (VDataFrame exits) ->
  (shape entries <> shape close -> unique_axes entries) ->
  (shape exits <> shape close -> unique_axes exits) ->
  exists entries' exits',
    validate env = Ok (close, entries', exits')
    /\ repaired entries close entries'
    /\ repaired exits close exits'.
Proof.
  intros Hc He Hx Hue Hux. unfold validate. rewrite Hc, He, Hx. simpl.
  destruct (fix_shape_repairs entries close Hue) as (entries' & -> & Re).
  destruct (fix_shape_repairs exits close Hux) as (exits' & -> & Rx).
  simpl. by exists entries', exits'.
Qed.

Lemma validate_repairs_shape_witness :
  exists entries' exits',
    validate (Scenario.env_of Scenario.close_ab Scenario.entries_a
                Scenario.exits_ba)
    = Ok (Scenario.close_ab, entries', exits')
    /\ repaired Scenario.entries_a Scenario.close_ab entries'
    /\ repaired Scenario.exits_ba Scenario.close_ab exits'.
Proof.
  apply validate_repairs_shape.
  - reflexivity.
  - reflexivity.
  - reflexivity.
  - intros _. split; reflexivity.
  - intros _. split; reflexivity.
Defined.

(** C3 (as stated) fails in two ways.  The exits table below has close's
    shape but its columns in the other order: it is not reindexed, so
    the validated triple does not have close's columns throughout, even
    though the entries table of the same environment is repaired.  And
    an entries table of another shape with a repeated column label makes
    the reindexing, and with it the validation, raise. *)
Lemma validate_keeps_foreign_labels :
  (exists entries',
     validate (Scenario.env_of Scenario.close_ab Scenario.entries_a
                 Scenario.exits_ba)
     = Ok (Scenario.close_ab, entries', Scenario.exits_ba)
     /\ shape Scenario.entries_a <> shape Scenario.close_ab
     /\ df_columns entries' = df_columns Scenario.close_ab
     /\ df_columns Scenario.exits_ba <> df_columns Scenario.close_ab)
  /\ validate (Scenario.env_of Scenario.close_ab Scenario.entries_aab
                 Scenario.exits_ba)
     = Raise (mkExn "ValueError"
                "cannot reindex on an axis with duplicate labels").
Proof.
  split.
  - eexists. split; [reflexivity|]. split; [discriminate|].
    split; [reflexivity | discriminate].
  - reflexivity.
Qed.

(** ** The fallback strategy *)

Section FallbackFacts.
Import Pandas.
Local Open Scope nat_scope.

Lemma filter_length_all {A} (f : A -> bool) (l : list A) :
  (forall x, f x = true) -> length (List.filter f l) = length l.
Proof.
  intros H. induction l as [|x l IH]; simpl; [done|].
  rewrite H. simpl. by rewrite IH.
Qed.

Lemma filter_length_none {A} (f : A -> bool) (l : list A) :
  (forall x, f x = false) -> length (List.filter f l) = 0.
Proof.
  intros H. induction l as [|x l IH]; simpl; [done|]. by rewrite H.
Qed.

(** A sum in which only position [k] contributes. *)
Lemma sum_single (g : nat -> nat) (k c start n : nat) :
  g k = c -> (forall i, i <> k -> g i = 0) ->
  sum_list (g <$> seq start n)
  = if (start <=? k) && (k <? start + n) then c else 0.
Proof.
  intros Hk H0. revert start; induction n as [|n IH]; intros start.
  - simpl. destruct (start <=? k) eqn:E1, (k <? start + 0) eqn:E2;
      simpl; try done.
    apply Nat.leb_le in E1. apply Nat.ltb_lt in E2. lia.
  - rewrite <- cons_seq, fmap_cons. simpl sum_list. rewrite IH.
    destruct (decide (start = k)) as [->|Hne].
    + rewrite Hk, Nat.leb_refl.
      destruct (S k <=? k) eqn:E1; [apply Nat.leb_le in E1; lia|].
      destruct (k <? k + S n) eqn:E2; [simpl; lia|].
      apply Nat.ltb_ge in E2. lia.
    + rewrite (H0 start Hne).
      destruct (S start <=? k) eqn:E1, (start <=? k) eqn:E2;
        destruct (k <? S start + n) eqn:E3, (k <? start + S n) eqn:E4;
        simpl; try done;
        rewrite ?Nat.leb_le, ?Nat.leb_gt, ?Nat.ltb_lt, ?Nat.ltb_ge in *;
        lia.
Qed.

Lemma count_true_full_false (index columns : list label) :
  count_true (full (CBool false) index columns) = 0.
Proof.
  unfold count_true.
  rewrite (sum_single _ 0 0); [by destruct (_ && _)| |];
    intros; by apply filter_length_none.
Qed.

(** After [t.iloc[k] = True] on an all-[False] table the [True] cells
    are the cells of row [k]. *)
Lemma count_true_one_row (index columns : list label) (k : nat)
    (t : DataFrame) :
  iloc_set_row (full (CBool false) index columns) k (CBool true) = Ok t ->
  df_index t = index /\ df_columns t = columns
  /\ (forall i j, is_true_cell (df_iat t i j) = (i =? k)%nat)
  /\ count_true t = length columns.
Proof.
  unfold iloc_set_row. destruct (k <? _)%nat eqn:E; [|done].
  intros [= <-]. apply Nat.ltb_lt in E. unfold nrows in E. simpl in E.
  split; [done|]. split; [done|]. split.
  - intros i j. simpl. by destruct (i =? k)%nat.
  - unfold count_true, nrows. simpl df_index.
    rewrite (sum_single _ k (length columns)).
    + simpl. replace (k <? length index)%nat with true; [done|].
      symmetry. by apply Nat.ltb_lt.
    + unfold count_true_row, ncols. simpl. rewrite Nat.eqb_refl.
      rewrite filter_length_all; [|done]. by rewrite length_seq.
    + intros i Hi. unfold count_true_row. simpl.
      apply filter_length_none. intros j.
      by apply Nat.eqb_neq in Hi as ->.
Qed.

Lemma xs_level1_index (raw close : DataFrame) (key : string) :
  xs_level1 raw key = Ok close -> df_index close = df_index raw.
Proof.
  unfold xs_level1. destruct (negb _); [done|].
  destruct (level1_matches _ _ _); [done|]. by intros [= <-].
Qed.

End FallbackFacts.

(** C7 (amended): for every price table whose cross-section at Close has
    at least 11 rows and at least 1 column, the fallback code, run with
    the globals of [auto_backtest] in a name space that holds the price
    table as [raw] and does not rebind [pd], completes and binds a
    triple in which close, entries and exits have the same index and the
    same columns; the true cells of entries are exactly the cells of the
    row at offset 10, one for every column, and exits has no true
    cell. *)
Theorem fallback_exec_triple (env : Env) (raw close : DataFrame) :
  env !! "raw" = Some (VDataFrame raw) ->
  env !! "pd" = None ->
  Pandas.xs_level1 raw "Close" = Ok close ->
  11 <= nrows close ->
  1 <= ncols close ->
  exists env' entries exits,
    fallback_exec preloaded_globals env = (env', None)
    /\ env' !! "close" = Some (VDataFrame close)
    /\ env' !! "entries" = Some (VDataFrame entries)
    /\ env' !! "exits" = Some (VDataFrame exits)
    /\ df_index entries = df_index close
    /\ df_columns entries = df_columns close
    /\ df_index exits = df_index close
    /\ df_columns exits = df_columns close
    /\ (forall i j, is_true_cell (df_iat entries i j) = (i =? 10)%nat)
    /\ (forall i j, is_true_cell (df_iat exits i j) = false)
    /\ Pandas.count_true entries = ncols close
    /\ Pandas.count_true exits = 0.
Proof.
  intros Hraw Hpd Hxs Hrows Hcols. unfold fallback_exec, lookup_name.
  rewrite Hraw. simpl. rewrite Hxs.
  rewrite lookup_insert_ne, Hpd by done.
  change (preloaded_globals !! "pd") with (Some (VModule "pandas")).
  simpl.
  destruct (Pandas.iloc_set_row
              (Pandas.full (CBool false) (df_index close) (df_columns close))
              10 (CBool true)) as [entries|e] eqn:E.
  - destruct (count_true_one_row _ _ _ _ E) as (Hi & Hc & Hcell & Hcount).
    eexists _, entries, _. split; [done|].
    split; [by rewrite !lookup_insert_ne, lookup_insert_eq by done|].
    split; [by rewrite lookup_insert_eq|].
    split; [by rewrite !lookup_insert_ne, lookup_insert_eq by done|].
    repeat split; try done. apply count_true_full_false.
  - exfalso. unfold Pandas.iloc_set_row in E.
    replace (10 <? nrows _)%nat with true in E; [done|].
    symmetry. apply Nat.ltb_lt. unfold nrows in *. simpl. lia.
Qed.

Lemma fallback_exec_triple_witness :
  exists env' entries exits,
    fallback_exec preloaded_globals (initial_env Scenario.raw_ab)
    = (env', None)
    /\ env' !! "close" = Some (VDataFrame Scenario.close_of_raw_ab)
    /\ env' !! "entries" = Some (VDataFrame entries)
    /\ env' !! "exits" = Some (VDataFrame exits)
    /\ df_index entries = df_index Scenario.close_of_raw_ab
    /\ df_columns entries = df_columns Scenario.close_of_raw_ab
    /\ df_index exits = df_index Scenario.close_of_raw_ab
    /\ df_columns exits = df_columns Scenario.close_of_raw_ab
    /\ (forall i j, is_true_cell (df_iat entries i j) = (i =? 10)%nat)
    /\ (forall i j, is_true_cell (df_iat exits i j) = false)
    /\ Pandas.count_true entries = ncols Scenario.close_of_raw_ab
    /\ Pandas.count_true exits = 0.
Proof.
  apply (fallback_exec_triple _ Scenario.raw_ab).
  - reflexivity.
  - reflexivity.
  - reflexivity.
  - vm_compute. lia.
  - vm_compute. lia.
Defined.

(** C7 (as stated) fails: on a price table with eleven rows and the two
    tickers A.NS and B.NS the fallback sets the whole row at offset 10,
    so entries has two true cells, not one. *)
Lemma fallback_exec_marks_every_column :
  exists env' entries,
    fallback_exec preloaded_globals (initial_env Scenario.raw_ab)
    = (env', None)
    /\ env' !! "entries" = Some (VDataFrame entries)
    /\ shape entries = (11, 2)
    /\ Pandas.count_true entries = 2
    /\ Pandas.count_true entries <> 1.
Proof.
  eexists _, _. split; [reflexivity|]. split; [reflexivity|].
  split; [reflexivity|]. split; [reflexivity | discriminate].
Qed.

(** ** The retry loop *)

Section ListFacts.

Context {A : Type}.

(** An element singled out by [P] sits behind a [P]-free prefix. *)
Lemma split_behind (P : A -> bool) (l1 l2 pre : list A) (x : A)
    (post : list A) :
  Forall (fun y => P y = false) l1 -> P x = true ->
  l1 ++ l2 = pre ++ x :: post ->
  exists pre', pre = l1 ++ pre' /\ l2 = pre' ++ x :: post.
Proof.
  intros Hl1 Hx. revert pre.
  induction Hl1 as [|y l1 Hy _ IH]; intros pre E; simpl in *.
  - by exists pre.
  - destruct pre as [|z pre]; simpl in E.
    + injection E as -> _. congruence.
    + injection E as -> E. destruct (IH pre E) as (pre' & -> & ->).
      by exists pre'.
Qed.

Lemma not_inside (P : A -> bool) (l pre : list A) (x : A)
    (post : list A) :
  Forall (fun y => P y = false) l -> P x = true ->
  l <> pre ++ x :: post.
Proof.
  intros Hl Hx E. rewrite E in Hl.
  apply Forall_app in Hl as [_ Hl]. apply Forall_cons in Hl as [Hl _].
  congruence.
Qed.

End ListFacts.

Lemma py_range_nil (lo hi : Z) : (hi <= lo)%Z -> py_range lo hi = [].
Proof.
  intros H. unfold py_range.
  by replace (Z.to_nat (hi - lo)) with 0 by lia.
Qed.

Lemma py_range_cons (lo hi : Z) :
  (lo < hi)%Z -> py_range lo hi = lo :: py_range (lo + 1) hi.
Proof.
  intros H. unfold py_range.
  replace (Z.to_nat (hi - lo)) with (S (Z.to_nat (hi - (lo + 1)))) by lia.
  rewrite <- cons_seq, fmap_cons, <- fmap_S_seq, <- list_fmap_compose.
  f_equal; [simpl; lia|]. apply list_fmap_ext. intros _ i _. simpl. lia.
Qed.

Lemma py_range_length (lo hi : Z) :
  length (py_range lo hi) = Z.to_nat (hi - lo).
Proof. unfold py_range. by rewrite length_fmap, length_seq. Qed.

Lemma omap_simulations {B} (f : Event -> option B) (sims : list SimArgs)
    (rest : list Event) :
  (forall args, f (EvSimulate args) = None) ->
  omap f ((EvSimulate <$> sims) ++ rest) = omap f rest.
Proof.
  intros H. induction sims as [|args sims IH]; simpl; [done|].
  by rewrite H.
Qed.

Lemma Forall_simulations (P : Event -> bool) (sims : list SimArgs) :
  (forall args, P (EvSimulate args) = false) ->
  Forall (fun ev => P ev = false) (EvSimulate <$> sims).
Proof. intros H. apply Forall_fmap, Forall_forall. intros args _. apply H. Qed.

(** A completed fallback leaves three tables on the same axes, in
    whatever globals it ran. *)
Lemma fallback_exec_binds (gl env env' : Env) :
  fallback_exec gl env = (env', None) ->
  exists close entries exits,
    env' !! "close" = Some (VDataFrame close)
    /\ env' !! "entries" = Some (VDataFrame entries)
    /\ env' !! "exits" = Some (VDataFrame exits)
    /\ shape entries = shape close
    /\ shape exits = shape close.
Proof.
  unfold fallback_exec.
  destruct (lookup_name gl env "raw") as [raw|]; [|done].
  destruct (as_frame raw) as [raw'|]; [|done].
  destruct (Pandas.xs_level1 raw' "Close") as [close|]; [|done].
  destruct (lookup_name gl _ "pd") as [pd|]; [|done].
  destruct (is_pandas pd); simpl; [|done].
  unfold Pandas.iloc_set_row. simpl.
  destruct (10 <? _)%nat; [|done].
  intros [= <-].
  eexists close, _, _.
  split; [by rewrite !lookup_insert_ne, lookup_insert_eq by done|].
  split; [by rewrite lookup_insert_eq|].
  split; [by rewrite !lookup_insert_ne, lookup_insert_eq by done|].
  done.
Qed.


Section LoopFacts.

Context {Portfolio : Type}.
Variable prompt_rules : string.
Variable W : World Portfolio.
Variables (user_prompt : string) (total_cash size : Q)
          (period interval : string) (max_retries : Z).

Local Abbreviation attempt_of := (try_attempt W total_cash size).
Local Abbreviation fallback_of := (try_fallback W total_cash size).
Local Abbreviation Trace := (LoopTrace W total_cash size max_retries).
Local Abbreviation loop :=
  (run_attempts prompt_rules W user_prompt total_cash size max_retries).

(** Events of the [try] body: the execution, then at most the
    simulation call. *)
Lemma try_attempt_events attempt code gl env evs gl' env' r :
  attempt_of attempt code gl env = (evs, gl', env', r) ->
  exists sims, evs = EvExec attempt code env env' :: (EvSimulate <$> sims).
Proof.
  unfold try_attempt.
  destruct (exec_generated W attempt code gl env) as [[gl1 env1] [e|]].
  - intros [= <- <- <- <-]. by exists [].
  - destruct (validate env1) as [[[close entries] exits]|e].
    + intros [= <- <- <- <-]. by eexists [_].
    + intros [= <- <- <- <-]. by exists [].
Qed.

(** Events of the fallback branch, and what its status records. *)
Lemma try_fallback_events gl env fbevs env' r last_error :
  fallback_of gl env = (fbevs, env', r) ->
  exists status sims,
    fbevs = EvFallback env env' status :: (EvSimulate <$> sims)
    /\ fallback_status_holds W total_cash size gl env env' status
         (fallback_outcome max_retries last_error r)
         (exhausted_error max_retries last_error).
Proof.
  unfold try_fallback.
  destruct (fallback_exec gl env) as [env1 [e|]] eqn:Efb.
  - intros [= <- <- <-]. exists (FbCodeRaised e), [].
    split; [done|]. split; [done|]. unfold caught.
    by destruct (is_exception e).
  - destruct (fallback_exec_binds _ _ _ Efb)
      as (close & entries & exits & Hc & He & Hx & _).
    rewrite Hc, He, Hx. cbn [as_frame].
    destruct (from_signals W _) as [pf|e] eqn:Es.
    + intros [= <- <- <-]. exists FbReturned. eexists [_].
      split; [done|]. split; [done|]. exists pf. split; [|done].
      by exists close, entries, exits.
    + intros [= <- <- <-]. exists (FbSimulationRaised e). eexists [_].
      split; [done|]. split; [done|].
      split; [by exists close, entries, exits|].
      unfold caught. by destruct (is_exception e).
Qed.

(** The loop of the model runs as the relation describes. *)
Lemma run_attempts_trace (n : nat) :
  forall attempt st,
    Z.to_nat (max_retries + 1 - attempt) = n ->
    Trace attempt (py_globals st) (env st)
      (fst (loop (py_range attempt (max_retries + 1)) st))
      (snd (loop (py_range attempt (max_retries + 1)) st)).
Proof.
  induction n as [|n IH]; intros attempt st Hn.
  - rewrite py_range_nil by lia. simpl. constructor. lia.
  - rewrite py_range_cons by lia. simpl. unfold attempt_body.
    destruct (chat_completion W attempt "o4-mini" _) as [content|e].
    2: { simpl. constructor. lia. }
    destruct (try_attempt _ _ _ attempt _ (py_globals st) (env st))
      as [[[evs gl'] env'] [pf|e]] eqn:Etry.
    { simpl. eapply lt_returned; [lia | done]. }
    destruct (is_exception e) eqn:Eexc.
    2: { simpl. eapply lt_passed; [lia | done | done]. }
    unfold handle_failure.
    destruct (attempt =? max_retries)%Z eqn:Elast.
    + apply Z.eqb_eq in Elast as ->.
      destruct (try_fallback _ _ _ gl' env')
        as [[fbevs env''] r] eqn:Efb.
      simpl. by eapply lt_fallback.
    + apply Z.eqb_neq in Elast.
      specialize (IH (attempt + 1)%Z
        (mkLoopState (Some (clean_generated_code content))
           (hint_text (classify_error (exc_msg e))) gl' env')).
      destruct (run_attempts _ _ _ _ _ _ _ _) as [evs' out]. simpl.
      rewrite <- app_assoc. simpl.
      eapply lt_retry; [lia | done | done |]. apply IH. lia.
Qed.



End LoopFacts.

Section LoopTraceFacts.

Context {Portfolio : Type}.
Variable W : World Portfolio.
Variables (total_cash size : Q) (max_retries : Z).

Local Abbreviation attempt_of := (try_attempt W total_cash size).
Local Abbreviation fallback_of := (try_fallback W total_cash size).
Local Abbreviation Trace := (LoopTrace W total_cash size max_retries).

Lemma gen_attempts_try attempt evs gl env gl' env' code r rest :
  attempt_of attempt code gl env = (evs, gl', env', r) ->
  gen_attempts (evs ++ rest) = gen_attempts rest.
Proof.
  intros [sims ->]%try_attempt_events. unfold gen_attempts. simpl.
  by rewrite omap_simulations.
Qed.

Lemma gen_attempts_iteration attempt prompt evs gl env gl' env' code r ev
    rest :
  attempt_of attempt code gl env = (evs, gl', env', r) ->
  generation_attempt ev = None ->
  gen_attempts (EvGenerate attempt prompt :: evs ++ ev :: rest)
  = attempt :: gen_attempts rest.
Proof.
  intros [sims ->]%try_attempt_events Hev. unfold gen_attempts. simpl.
  rewrite omap_simulations by done. simpl. by rewrite Hev.
Qed.

Lemma gen_attempts_fallback gl env fbevs env' r :
  fallback_of gl env = (fbevs, env', r) -> gen_attempts fbevs = [].
Proof.
  intros H.
  destruct (try_fallback_events _ _ _ max_retries _ _ _ _ _ "" H)
    as (status & sims & -> & _).
  unfold gen_attempts. simpl.
  rewrite <- (app_nil_r (EvSimulate <$> sims)).
  by rewrite omap_simulations.
Qed.

(** The events of one iteration up to its [except] branch carry no
    fallback. *)
Lemma iteration_no_fallback attempt prompt evs gl env gl' env' code r e le :
  attempt_of attempt code gl env = (evs, gl', env', r) ->
  Forall (fun ev => is_fallback ev = false)
    (EvGenerate attempt prompt :: evs ++ [EvFailed attempt e le]).
Proof.
  intros [sims ->]%try_attempt_events.
  repeat (apply Forall_cons; split; [done|]).
  apply Forall_app. split; [by apply Forall_simulations|].
  by repeat constructor.
Qed.

(** An iteration that ends in its [try]: one generation call and no
    fallback. *)
Lemma iteration_ends_in_try attempt prompt evs gl env gl' env' code r :
  (attempt <= max_retries)%Z ->
  attempt_of attempt code gl env = (evs, gl', env', r) ->
  (exists k, (attempt - 1 <= k <= max_retries)%Z
             /\ gen_attempts (EvGenerate attempt prompt :: evs)
                = py_range attempt (k + 1))
  /\ forall pre ev post,
       EvGenerate attempt prompt :: evs = pre ++ ev :: post ->
       is_fallback ev = true ->
       gen_attempts pre = py_range attempt (max_retries + 1)
       /\ gen_attempts post = []
       /\ exists e le, last pre = Some (EvFailed max_retries e le).
Proof.
  intros Hle [sims ->]%try_attempt_events. split.
  - exists attempt. split; [lia|].
    rewrite py_range_cons, py_range_nil by lia.
    unfold gen_attempts. simpl.
    rewrite <- (app_nil_r (EvSimulate <$> sims)).
    by rewrite omap_simulations.
  - intros pre ev post E Hev. exfalso.
    eapply (not_inside is_fallback); [|exact Hev|exact E].
    repeat (apply Forall_cons; split; [done|]).
    by apply Forall_simulations.
Qed.

(** Generation calls of a run of the loop, and where its fallback
    sits. *)
Lemma loop_trace_generations attempt gl env tr out :
  Trace attempt gl env tr out ->
  (attempt <= max_retries + 1)%Z ->
  (exists k, (attempt - 1 <= k <= max_retries)%Z
             /\ gen_attempts tr = py_range attempt (k + 1))
  /\ forall pre ev post,
       tr = pre ++ ev :: post -> is_fallback ev = true ->
       gen_attempts pre = py_range attempt (max_retries + 1)
       /\ gen_attempts post = []
       /\ exists e le, last pre = Some (EvFailed max_retries e le).
Proof.
  induction 1 as [attempt gl env Hlt
                 |attempt gl env prompt e0 Hle
                 |attempt gl env prompt code evs gl' env' pf Hle Htry
                 |attempt gl env prompt code evs gl' env' e0 Hle Htry Hexc
                 |attempt gl env prompt code evs gl' env' e0 tr out
                    Hlt Htry Hexc _ IH
                 |gl env prompt code evs gl' env' e0 fbevs env'' r
                    Htry Hexc Hfb];
    intros Hrange.
  - split.
    + exists (attempt - 1)%Z. split; [lia|].
      by rewrite py_range_nil by lia.
    + intros pre ev post E. by destruct pre.
  - split.
    + exists attempt. split; [lia|].
      rewrite py_range_cons, py_range_nil by lia. done.
    + intros pre ev post E Hev. exfalso.
      eapply (not_inside is_fallback); [|exact Hev|exact E].
      by repeat constructor.
  - by eapply iteration_ends_in_try.
  - by eapply iteration_ends_in_try.
  - destruct IH as [(k & Hk & Hgen) Hfb]; [lia|].
    rewrite (gen_attempts_iteration _ _ _ _ _ _ _ _ _ _ _ Htry) by done.
    split.
    + exists k. split; [lia|]. rewrite Hgen.
      by rewrite (py_range_cons attempt) by lia.
    + intros pre ev post E Hev.
      change (EvGenerate attempt prompt :: evs ++ ?x :: tr)
        with ((EvGenerate attempt prompt :: evs) ++ x :: tr) in E.
      rewrite (cons_middle _ (_ :: evs) tr), app_assoc in E.
      destruct (split_behind is_fallback _ _ _ _ _
                  (iteration_no_fallback _ prompt _ _ _ _ _ _ _ _ _ Htry)
                  Hev E) as (pre' & -> & ->).
      destruct (Hfb pre' ev post eq_refl Hev) as (Hpre & Hpost & e' & le & Hl).
      split; [|split; [done|]].
      * simpl. rewrite <- app_assoc. simpl.
        rewrite (gen_attempts_try _ _ _ _ _ _ _ _ _ Htry). simpl.
        change (omap generation_attempt pre') with (gen_attempts pre').
        rewrite Hpre. by rewrite (py_range_cons attempt) by lia.
      * exists e', le. rewrite last_app, Hl. done.
  - destruct (try_fallback_events _ _ _ max_retries _ _ _ _ _ "" Hfb)
      as (status & sims & -> & _).
    split.
    + exists max_retries. split; [lia|].
      rewrite (gen_attempts_iteration _ _ _ _ _ _ _ _ _ _ _ Htry) by done.
      rewrite py_range_cons, py_range_nil by lia.
      unfold gen_attempts. simpl.
      rewrite <- (app_nil_r (EvSimulate <$> sims)).
      by rewrite omap_simulations.
    + intros pre ev post E Hev.
      change (EvGenerate max_retries prompt :: evs ++ ?x :: ?y)
        with ((EvGenerate max_retries prompt :: evs) ++ x :: y) in E.
      rewrite (cons_middle _ (_ :: evs)), app_assoc in E.
      destruct (split_behind is_fallback _ _ _ _ _
                  (iteration_no_fallback _ prompt _ _ _ _ _ _ _ _ _ Htry)
                  Hev E) as (pre' & -> & E').
      destruct pre' as [|x pre'].
      * simpl in E'. injection E' as <- <-. rewrite app_nil_r.
        split; [|split].
        -- simpl. rewrite (gen_attempts_try _ _ _ _ _ _ _ _ _ Htry).
           rewrite py_range_cons, py_range_nil by lia. done.
        -- unfold gen_attempts.
           rewrite <- (app_nil_r (EvSimulate <$> sims)).
           by rewrite omap_simulations.
        -- eexists _, _. by rewrite last_cons, last_snoc.
      * exfalso. simpl in E'. injection E' as _ E'.
        eapply (not_inside is_fallback); [|exact Hev|exact E'].
        by apply Forall_simulations.
Qed.






End LoopTraceFacts.

(** ** [auto_backtest] *)

Section AutoBacktestFacts.

Context {Portfolio : Type}.
Variable prompt_rules : string.
Variable W : World Portfolio.
Variables (user_prompt : string) (total_cash size : Q)
          (period interval : string) (max_retries : Z).

Local Abbreviation run :=
  (auto_backtest prompt_rules W user_prompt total_cash size period
     interval max_retries).
Local Abbreviation Trace := (LoopTrace W total_cash size max_retries).

(** A run ends before the download, at the download, or is the
    download followed by a run of the loop from attempt 1 on the
    preloaded globals and the locals that hold the price table. *)
Lemma auto_backtest_trace (tickers : list string) :
  (exists e, run tickers = ([], Raised e))
  \/ (exists ts e, run tickers = ([EvDownload ts], Raised e))
  \/ (exists symbols raw tr out,
        read_csv_symbols W "ind_nifty500list.csv" = Ok symbols
        /\ yf_download W (ticker_universe symbols) period interval = Ok raw
        /\ run tickers = (EvDownload (ticker_universe symbols) :: tr, out)
        /\ Trace 1 preloaded_globals (initial_env raw) tr out).
Proof.
  unfold auto_backtest.
  destruct (getenv W "OPENAI_API_KEY"); [|by eauto].
  destruct (read_csv_symbols W _) as [symbols|e] eqn:Ecsv; [|by eauto].
  destruct (yf_download W _ _ _) as [raw|e] eqn:Eraw; [|by eauto].
  right; right. exists symbols, raw.
  pose proof (run_attempts_trace prompt_rules W user_prompt total_cash
                size max_retries _ 1%Z
                (mkLoopState None "" preloaded_globals (initial_env raw))
                eq_refl) as H.
  destruct (run_attempts _ _ _ _ _ _ _ _) as [tr out].
  simpl in H. exists tr, out. by repeat split.
Qed.

Lemma download_not_fallback ts :
  Forall (fun ev => is_fallback ev = false) [EvDownload ts].
Proof. by repeat constructor. Qed.


(** C1: for every [max_retries >= 1] a run issues at most
    [max_retries] generation calls; the calls are those of the
    attempts 1, 2, ..., k in this order, one per iteration, for some
    [k <= max_retries]; and if the fallback runs at all, exactly the
    calls of the attempts 1..max_retries precede it, none follows it,
    and the event just before it is the failure branch of attempt
    [max_retries]. *)
Theorem generation_calls_bounded (tickers : list string) :
  (1 <= max_retries)%Z ->
  (Z.of_nat (length (gen_attempts (fst (run tickers)))) <= max_retries)%Z
  /\ (exists k, (0 <= k <= max_retries)%Z
                /\ gen_attempts (fst (run tickers)) = py_range 1 (k + 1))
  /\ forall pre ev post,
       fst (run tickers) = pre ++ ev :: post ->
       is_fallback ev = true ->
       gen_attempts pre = py_range 1 (max_retries + 1)
       /\ gen_attempts post = []
       /\ exists e le, last pre = Some (EvFailed max_retries e le).
Proof.
  intros Hmax.
  assert ((exists k, (0 <= k <= max_retries)%Z
                /\ gen_attempts (fst (run tickers)) = py_range 1 (k + 1))
          /\ forall pre ev post,
               fst (run tickers) = pre ++ ev :: post ->
               is_fallback ev = true ->
               gen_attempts pre = py_range 1 (max_retries + 1)
               /\ gen_attempts post = []
               /\ exists e le, last pre = Some (EvFailed max_retries e le))
    as [(k & Hk & Hgen) Hfb].
  { destruct (auto_backtest_trace tickers)
      as [[e ->]|[(ts & e & ->)|(symbols & raw & tr & out & _ & _ & -> & Htr)]].
    - split; [exists 0%Z; split; [lia | done]|].
      intros pre ev post E. by destruct pre.
    - split; [exists 0%Z; split; [lia | done]|].
      intros pre ev post E Hev. exfalso.
      eapply (not_inside is_fallback); [|exact Hev|exact E].
      apply download_not_fallback.
    - destruct (loop_trace_generations _ _ _ _ _ _ _ _ _ Htr ltac:(lia))
        as [(k & Hk & Hgen) Hfb].
      split; [exists k; split; [lia | done]|].
      intros pre ev post E Hev. simpl in E.
      change (EvDownload ?ts :: tr) with ([EvDownload ts] ++ tr) in E.
      destruct (split_behind is_fallback _ _ _ _ _
                  (download_not_fallback _) Hev E) as (pre' & -> & ->).
      destruct (Hfb pre' ev post eq_refl Hev) as (Hpre & Hpost & e & le & Hl).
      split; [done|]. split; [done|]. exists e, le.
      by rewrite last_app, Hl. }
  split; [|by eauto].
  rewrite Hgen, py_range_length. lia.
Qed.



(** C10: the run does not depend on the [tickers] argument: any two
    values give the same events and the same outcome, and the download
    is made for the ticker universe read from the CSV list. *)
Theorem tickers_argument_ignored (tickers1 tickers2 : list string) :
  run tickers1 = run tickers2
  /\ match head (fst (run tickers1)) with
     | None => True
     | Some (EvDownload ts) =>
         exists symbols,
           read_csv_symbols W "ind_nifty500list.csv" = Ok symbols
           /\ ts = ticker_universe symbols
     | Some _ => False
     end.
Proof.
  split; [reflexivity|].
  destruct (auto_backtest_trace tickers1)
    as [[e ->]|[(ts & e & E)|(symbols & raw & tr & out & Hcsv & _ & -> & _)]];
    simpl; [done| |by eauto].
  rewrite E. simpl. revert E. unfold auto_backtest.
  destruct (getenv W _); [|done].
  destruct (read_csv_symbols W _) as [symbols|]; [|done].
  destruct (yf_download W _ _ _).
  - destruct (run_attempts _ _ _ _ _ _ _ _). intros [= <- _]. by eauto.
  - intros [= <- _]. by eauto.
Qed.

End AutoBacktestFacts.

(** *** Concrete runs *)

(** Three failing answers: three generation calls, then the fallback. *)
Lemma generation_calls_bounded_witness :
  (1 <= 3)%Z
  /\ gen_attempts (fst (Toy.run Toy.answers_failing 3)) = [1; 2; 3]%Z
  /\ (Z.of_nat (length (gen_attempts (fst (Toy.run Toy.answers_failing 3))))
      <= 3)%Z.
Proof.
  assert (1 <= 3)%Z as H by lia.
  split; [exact H|]. split; [reflexivity|].
  apply (generation_calls_bounded "" (Toy.world Toy.answers_failing)
           "buy low" 10000 (1 # 5) "24mo" "1d" 3 [] H).
Defined.



(** The globals are one dict as well: the first of two answers rebinds
    the global [pd] and fails, the second only fails, and the fallback
    code, run after the second, finds [pd] rebound and fails too; the
    retries are reported as exhausted. *)
Example fallback_after_rebound_pd :
  let r := Toy.run Toy.answers_unbinding 2 in
  (exists env_in env_out,
     last (fst r)
     = Some (EvFallback env_in env_out
               (FbCodeRaised (attribute_error "DataFrame"))))
  /\ snd r
     = Raised (mkExn "RuntimeError"
         ("Failed to generate valid code after 2 attempts."
          +:+ PyStr.nl +:+ "Last error:" +:+ PyStr.nl +:+ "Error: boom")).
Proof. split; [eexists _, _|]; reflexivity. Qed.



(** ** The executor's name space *)




(** * Further properties *)

(** ** More on the string primitives *)

Module PyStrMore.
Import PyStr PyStrFacts.

Lemma startswith_refl (s : string) : startswith s s = true.
Proof.
  induction s as [|c s IH]; [done|].
  by rewrite startswith_cons, Ascii.eqb_refl.
Qed.

Lemma contains_refl (s : string) : contains s s = true.
Proof. destruct s; simpl; by rewrite ?startswith_refl, ?Ascii.eqb_refl. Qed.

Lemma endswith_unfold (c : ascii) (s p : string) :
  endswith (String c s) p = String.eqb (String c s) p || endswith s p.
Proof. reflexivity. Qed.

Lemma endswith_refl (s : string) : endswith s s = true.
Proof. destruct s; simpl; [done|]. by rewrite Ascii.eqb_refl, String.eqb_refl. Qed.

Lemma endswith_app (a p : string) : endswith (a +:+ p) p = true.
Proof.
  induction a as [|c a IH]; [apply endswith_refl|].
  rewrite app_cons, endswith_unfold, IH. apply orb_true_r.
Qed.

Lemma length_app (a b : string) :
  String.length (a +:+ b) = String.length a + String.length b.
Proof.
  induction a as [|c a IH]; [done|]. rewrite app_cons. simpl. by rewrite IH.
Qed.

Lemma take_app (a b : string) : take (String.length a) (a +:+ b) = a.
Proof.
  induction a as [|c a IH]; [by destruct b|].
  rewrite app_cons. simpl. by rewrite IH.
Qed.

Lemma drop_last_app (a p : string) :
  drop_last (String.length p) (a +:+ p) = a.
Proof.
  unfold drop_last. rewrite length_app.
  replace (String.length a + String.length p - String.length p)
    with (String.length a) by lia.
  apply take_app.
Qed.

Lemma app_empty_r (s : string) : s +:+ "" = s.
Proof. induction s as [|c s IH]; [done|]. by rewrite app_cons, IH. Qed.

(** Splitting distributes over texts joined by a newline. *)
Lemma split_lines_app (a b : string) :
  split_lines (a +:+ String nl_char b) = split_lines a ++ split_lines b.
Proof.
  induction a as [|c a IH]; [by rewrite app_nil|].
  rewrite app_cons. simpl split_lines. rewrite IH.
  destruct (Ascii.eqb c nl_char); [done|].
  by destruct (split_lines_cons a) as (l & ls & ->).
Qed.

Lemma split_lines_single (l : string) :
  newline_free l = true -> split_lines l = [l].
Proof.
  induction l as [|c l IH]; [done|].
  intros [Hc Hl]%newline_free_cons. simpl. by rewrite Hc, (IH Hl).
Qed.

Lemma split_lines_newline_free (s : string) :
  Forall (fun l => newline_free l = true) (split_lines s).
Proof.
  induction s as [|c s IH]; simpl; [by repeat constructor|].
  destruct (Ascii.eqb c nl_char) eqn:E; [by constructor|].
  destruct (split_lines_cons s) as (l & ls & Hs). rewrite Hs in *.
  apply Forall_cons in IH as [Hl Hls]. constructor; [|done].
  simpl. by rewrite E, Hl.
Qed.

(** [s.split('\n')] undoes ['\n'.join(..)] on newline-free lines. *)
Lemma split_join (ls : list string) :
  ls <> [] ->
  Forall (fun l => newline_free l = true) ls ->
  split_lines (join_lines ls) = ls.
Proof.
  induction ls as [|l ls IH]; [done|]. intros _ [Hl Hls]%Forall_cons.
  destruct ls as [|l' ls]; [by apply split_lines_single|].
  rewrite join_lines_cons.
  change (l +:+ nl +:+ ?t) with (l +:+ String nl_char t).
  rewrite split_lines_app, (split_lines_single l Hl), IH; done.
Qed.

Lemma rstrip_app_space (s : string) (c : ascii) :
  is_space c = true -> rstrip (s +:+ String c "") = rstrip s.
Proof.
  intros Hc. induction s as [|c' s IH].
  - rewrite app_nil, rstrip_cons, Hc. done.
  - by rewrite app_cons, !rstrip_cons, IH.
Qed.

Lemma strip_between_newlines (body : string) :
  strip (String nl_char (body +:+ nl)) = strip body.
Proof.
  unfold strip. change nl with (String nl_char "").
  rewrite rstrip_cons, (rstrip_app_space body nl_char) by done.
  change (is_space nl_char) with true. simpl andb.
  destruct (rstrip body) as [|c r]; [done|]. reflexivity.
Qed.

End PyStrMore.

(** ** More on the sanitizer *)

Section SanitizerMore.
Import PyStr PyStrFacts PyStrMore.

Lemma cleaned_lines_free (lines : list string) :
  Forall (fun line => is_explanation line = false) (cleaned_lines lines).
Proof.
  induction lines as [|line lines IH]; simpl; [done|].
  destruct (is_explanation line) eqn:E; [done | by constructor].
Qed.

Lemma cleaned_lines_prefix (lines : list string) :
  exists rest, lines = cleaned_lines lines ++ rest.
Proof.
  induction lines as [|line lines [rest IH]]; simpl; [by exists []|].
  destruct (is_explanation line); [by eexists|].
  exists rest. simpl. by rewrite <- IH.
Qed.

(** The loop stops in front of the first line with a marker. *)
Lemma cleaned_lines_stop (kept : list string) (line : string)
    (rest : list string) :
  Forall (fun l => is_explanation l = false) kept ->
  is_explanation line = true ->
  cleaned_lines (kept ++ line :: rest) = kept.
Proof.
  intros Hkept Hline. induction Hkept as [|l kept Hl _ IH]; simpl.
  - by rewrite Hline.
  - by rewrite Hl, IH.
Qed.

Lemma prose_free_join_cleaned (lines : list string) :
  Forall (fun l => newline_free l = true) lines ->
  prose_free (join_lines (cleaned_lines lines)).
Proof.
  intros Hnl. unfold prose_free.
  destruct (cleaned_lines lines) as [|l ls] eqn:E; [by repeat constructor|].
  rewrite split_join; [|done|].
  - rewrite <- E. apply cleaned_lines_free.
  - destruct (cleaned_lines_prefix lines) as [rest Hrest].
    rewrite Hrest, E in Hnl. by apply Forall_app in Hnl as [? _].
Qed.

Lemma no_python_fence (s : string) :
  startswith s fence = false -> startswith s fence_python = false.
Proof.
  intros H. apply not_true_iff_false. intros Hp.
  by rewrite (startswith_shorter s fence "python" Hp) in H.
Qed.

Lemma prose_free_between_newlines (body : string) :
  prose_free body -> prose_free (String nl_char (body +:+ nl)).
Proof.
  unfold prose_free. intros H. simpl split_lines.
  change (Ascii.eqb nl_char nl_char) with true. cbv iota.
  change nl with (String nl_char ""). rewrite split_lines_app.
  constructor; [done|]. apply Forall_app. split; [done|].
  by repeat constructor.
Qed.

(** The text behind an opening fence line, up to the closing fence. *)
Lemma clean_behind_opening (body : string) :
  prose_free body ->
  let code_str := String nl_char (body +:+ nl +:+ fence) in
  let code_str :=
    if endswith code_str fence then drop_last 3 code_str else code_str in
  strip (join_lines (cleaned_lines (split_lines code_str))) = strip body.
Proof.
  intros Hbody. cbv zeta.
  replace (String nl_char (body +:+ nl +:+ fence))
    with (String nl_char (body +:+ nl) +:+ fence)
    by (by rewrite app_cons, app_assoc).
  rewrite endswith_app.
  change 3 with (String.length fence). rewrite drop_last_app.
  rewrite (cleaned_lines_all _ (prose_free_between_newlines body Hbody)).
  rewrite join_split. apply strip_between_newlines.
Qed.

Lemma sanitized_prose_free (s : string) :
  prose_free (clean_generated_code s).
Proof.
  unfold clean_generated_code.
  apply prose_free_strip, prose_free_join_cleaned, split_lines_newline_free.
Qed.

Lemma sanitized_trimmed (s : string) :
  strip (clean_generated_code s) = clean_generated_code s.
Proof. unfold clean_generated_code. apply strip_idem. Qed.

End SanitizerMore.

(** X1: whatever the input, the sanitizer's output is trimmed and none
    of its lines carries an explanation marker. *)
Theorem clean_generated_code_normal_form (s : string) :
  prose_free (clean_generated_code s)
  /\ PyStr.strip (clean_generated_code s) = clean_generated_code s.
Proof. split; [apply sanitized_prose_free | apply sanitized_trimmed]. Qed.

(** X2: on every input whose sanitized text has no fence marker at
    either end, sanitizing a second time changes nothing. *)
Theorem clean_generated_code_stable (s : string) :
  fence_free (clean_generated_code s) ->
  clean_generated_code (clean_generated_code s) = clean_generated_code s.
Proof.
  intros Hf. rewrite (clean_is_strip (clean_generated_code s)).
  - apply sanitized_trimmed.
  - split; [done | apply sanitized_prose_free].
Qed.

Lemma clean_generated_code_stable_witness :
  let s := "```" +:+ PyStr.nl +:+ "x = 1" +:+ PyStr.nl +:+ "```" in
  fence_free (clean_generated_code s) /\
  clean_generated_code (clean_generated_code s) = clean_generated_code s.
Proof.
  intros s.
  assert (fence_free (clean_generated_code s)) as H by (split; reflexivity).
  split; [exact H|]. exact (clean_generated_code_stable s H).
Defined.

(** X3: a body without explanation markers, wrapped in an opening
    [```python] or [```] line and a closing [```] at the very end,
    comes out as the trimmed body. *)
Theorem clean_generated_code_unwraps (opener body : string) :
  opener = fence_python \/ opener = fence ->
  prose_free body ->
  clean_generated_code (in_fences opener body) = PyStr.strip body.
Proof.
  intros Hop Hbody. unfold in_fences, clean_generated_code.
  change (PyStr.nl +:+ body +:+ PyStr.nl +:+ fence)
    with (String PyStr.nl_char (body +:+ PyStr.nl +:+ fence)).
  destruct Hop as [-> | ->].
  - rewrite (PyStrFacts.startswith_app_l fence_python _ fence_python
               (PyStrMore.startswith_refl _)).
    change (PyStr.drop 9 (fence_python +:+ ?r)) with r.
    change (PyStr.startswith (String PyStr.nl_char ?r) fence) with false.
    cbv iota. by apply clean_behind_opening.
  - change (PyStr.startswith (fence +:+ String PyStr.nl_char ?r)
              fence_python) with false.
    cbv iota.
    rewrite (PyStrFacts.startswith_app_l fence _ fence
               (PyStrMore.startswith_refl _)).
    change (PyStr.drop 3 (fence +:+ ?r)) with r.
    by apply clean_behind_opening.
Qed.

Lemma clean_generated_code_unwraps_witness :
  clean_generated_code (in_fences fence_python "  entries = x")
  = "entries = x".
Proof.
  apply (clean_generated_code_unwraps fence_python "  entries = x").
  - by left.
  - repeat constructor.
Defined.

(** X4: when the text has no fence marker at either end, the code in
    front of a line with an explanation marker has none, and that line
    starts after a newline, the sanitizer returns the trimmed code in
    front and drops the marked line with everything after it. *)
Theorem clean_generated_code_cuts_prose (code tail : string) :
  fence_free (code +:+ PyStr.nl +:+ tail) ->
  prose_free code ->
  is_explanation (first_line tail) = true ->
  clean_generated_code (code +:+ PyStr.nl +:+ tail) = PyStr.strip code.
Proof.
  intros [Hstart Hend] Hcode Htail. unfold clean_generated_code.
  rewrite (no_python_fence _ Hstart), Hstart, Hend.
  change (PyStr.nl +:+ tail) with (String PyStr.nl_char tail).
  rewrite PyStrMore.split_lines_app.
  unfold first_line in Htail.
  destruct (PyStrFacts.split_lines_cons tail) as (l & ls & Hs).
  rewrite Hs in *. simpl in Htail.
  rewrite (cleaned_lines_stop _ _ _ Hcode Htail).
  by rewrite PyStrFacts.join_split.
Qed.

Lemma clean_generated_code_cuts_prose_witness :
  clean_generated_code
    ("x = 1" +:+ PyStr.nl +:+ "Note: buys low" +:+ PyStr.nl +:+ "y = 2")
  = "x = 1".
Proof.
  apply (clean_generated_code_cuts_prose "x = 1"
           ("Note: buys low" +:+ PyStr.nl +:+ "y = 2")).
  - split; reflexivity.
  - repeat constructor.
  - reflexivity.
Defined.

(** ** More on the classifier and the validator *)

Section ValidatorMore.
Import PyStr PyStrFacts PyStrMore Pandas.

Lemma contains_between (before m after : string) :
  contains m (before +:+ m +:+ after) = true.
Proof. apply contains_app_r, contains_app_l, contains_refl. Qed.

Lemma reindex_axis_fault (axis target : list label) (e : Exn) :
  reindex_axis axis target = Raise e -> e = duplicate_labels_error.
Proof.
  unfold reindex_axis. destruct (decide _); [done|].
  destruct (is_unique axis); [done|]. by intros [= <-].
Qed.

Lemma reindex_fault (t : DataFrame) (index columns : list label)
    (fill : cell) (e : Exn) :
  reindex t index columns fill = Raise e -> e = duplicate_labels_error.
Proof.
  unfold reindex.
  destruct (reindex_axis (df_columns t) columns) as [cols|e1] eqn:Ec; simpl.
  - destruct (reindex_axis (df_index t) index) as [rows|e2] eqn:Er;
      simpl; [done|].
    intros [= <-]. by eapply reindex_axis_fault.
  - intros [= <-]. by eapply reindex_axis_fault.
Qed.

Lemma reindex_axes (t : DataFrame) (index columns : list label)
    (fill : cell) (t' : DataFrame) :
  reindex t index columns fill = Ok t' ->
  df_index t' = index /\ df_columns t' = columns.
Proof.
  unfold reindex.
  destruct (reindex_axis (df_columns t) columns) as [cols|]; [|done].
  destruct (reindex_axis (df_index t) index) as [rows|]; [|done].
  simpl. by intros [= <-].
Qed.

Lemma fix_shape_fault (t close : DataFrame) (e : Exn) :
  fix_shape t close = Raise e -> e = duplicate_labels_error.
Proof.
  unfold fix_shape. destruct (negb _); [|done]. apply reindex_fault.
Qed.

Lemma fix_shape_shape (t close t' : DataFrame) :
  fix_shape t close = Ok t' -> shape t' = shape close.
Proof.
  unfold fix_shape.
  destruct (shape_eqb (shape t) (shape close)) eqn:E; simpl.
  - intros [= <-]. by apply shape_eqb_eq.
  - intros [Hi Hc]%reindex_axes. unfold shape. by rewrite Hi, Hc.
Qed.

(** The ways validation ends. *)
Lemma validate_cases (env : Env) :
  (validate env = Raise missing_names_error
   /\ (env !! "close" = None \/ env !! "entries" = None
       \/ env !! "exits" = None))
  \/ (exists name, validate env = Raise (wrong_type_error name)
                   /\ name ∈ ["close"; "entries"; "exits"])
  \/ (exists close entries exits,
        env !! "close" = Some (VDataFrame close)
        /\ env !! "entries" = Some (VDataFrame entries)
        /\ env !! "exits" = Some (VDataFrame exits)
        /\ (validate env = Raise duplicate_labels_error
            \/ exists entries' exits',
                 validate env = Ok (close, entries', exits')
                 /\ shape entries' = shape close
                 /\ shape exits' = shape close)).
Proof.
  unfold validate.
  destruct (env !! "close") as [close|]; [|by left; auto].
  destruct (env !! "entries") as [entries|]; [|by left; auto].
  destruct (env !! "exits") as [exits|]; [|by left; auto].
  right.
  destruct close as [close| |]; simpl;
    [|left; exists "close"; split; [done | set_solver]..].
  destruct entries as [entries| |]; simpl;
    [|left; exists "entries"; split; [done | set_solver]..].
  destruct exits as [exits| |]; simpl;
    [|left; exists "exits"; split; [done | set_solver]..].
  right. exists close, entries, exits. repeat split.
  destruct (fix_shape entries close) as [entries'|e] eqn:Ee; simpl.
  2: { left. by rewrite (fix_shape_fault _ _ _ Ee). }
  destruct (fix_shape exits close) as [exits'|e] eqn:Ex; simpl.
  2: { left. by rewrite (fix_shape_fault _ _ _ Ex). }
  right. exists entries', exits'.
  split; [done|]. split; by eapply fix_shape_shape.
Qed.

Lemma validate_ok_inv (env : Env) (close entries exits : DataFrame) :
  validate env = Ok (close, entries, exits) ->
  env !! "close" = Some (VDataFrame close)
  /\ shape entries = shape close
  /\ shape exits = shape close.
Proof.
  intros H.
  destruct (validate_cases env)
    as [[E _]|[(name & E & _)|(c & e & x & Hc & _ & _ & [E|(e' & x' & E & He & Hx)])]];
    rewrite E in H; try discriminate.
  by injection H as <- <- <-.
Qed.


End ValidatorMore.

(** X5: whatever the message, the text the classifier produces contains
    the message itself, unabridged. *)
Theorem classify_error_keeps_message (m : string) :
  PyStr.contains m (hint_text (classify_error m)) = true.
Proof.
  unfold classify_error.
  repeat match goal with
         | |- context [if ?c then _ else _] => destruct c
         end; cbn [hint_text];
    first [ apply contains_between
          | apply PyStrFacts.contains_app_r, PyStrMore.contains_refl ].
Qed.

(** X6: whenever validation succeeds, the first table of the triple is
    the very table bound to [close], and both signal tables have its
    shape. *)
Theorem validate_shapes_match (env : Env) (close entries exits : DataFrame) :
  validate env = Ok (close, entries, exits) ->
  env !! "close" = Some (VDataFrame close)
  /\ shape entries = shape close
  /\ shape exits = shape close.
Proof. apply validate_ok_inv. Qed.

Lemma validate_shapes_match_witness :
  exists entries,
    validate (Scenario.env_of Scenario.close_ab Scenario.entries_a
                Scenario.exits_ba)
    = Ok (Scenario.close_ab, entries, Scenario.exits_ba)
    /\ shape entries = shape Scenario.close_ab
    /\ shape Scenario.exits_ba = shape Scenario.close_ab.
Proof.
  eexists. split; [reflexivity|].
  exact (proj2 (validate_shapes_match
                  (Scenario.env_of Scenario.close_ab Scenario.entries_a
                     Scenario.exits_ba) _ _ _ eq_refl)).
Defined.

(** X7: every fault of the validator is a [ValueError], and the
    classifier puts each of them into the catch-all category, so the
    next prompt gets the bare message without a hint. *)
Theorem validate_fault_is_other (env : Env) (e : Exn) :
  validate env = Raise e ->
  exc_type e = "ValueError"
  /\ classify_error (exc_msg e) = mkClassified Other ("Error: " +:+ exc_msg e).
Proof.
  intros H.
  destruct (validate_cases env)
    as [[E _]|[(name & E & Hn)|(c & en & x & _ & _ & _ & [E|(e' & x' & E & _)])]];
    rewrite E in H; try discriminate; injection H as <-.
  - by split.
  - repeat (apply elem_of_cons in Hn as [->|Hn]; [by split|]).
    by apply elem_of_nil in Hn.
  - by split.
Qed.

Lemma validate_fault_is_other_witness :
  classify_error
    (exc_msg (wrong_type_error "entries"))
  = mkClassified Other ("Error: 'entries' must be a pandas DataFrame").
Proof.
  apply (validate_fault_is_other
           {[ "close" := VDataFrame Scenario.close_ab;
              "entries" := VOther "1";
              "exits" := VDataFrame Scenario.exits_ba ]}
           (wrong_type_error "entries")).
  reflexivity.
Defined.

(** X8: the validator reports missing variables exactly when one of
    [close], [entries], [exits] is not bound; a name bound to anything,
    even to a value of the wrong type, does not count as missing. *)
Theorem validate_missing_names (env : Env) :
  validate env = Raise missing_names_error
  <-> (env !! "close" = None \/ env !! "entries" = None
       \/ env !! "exits" = None).
Proof.
  split.
  - intros H.
    destruct (validate_cases env)
      as [[_ Hm]|[(name & E & Hn)|(c & en & x & _ & _ & _ & [E|(e' & x' & E & _)])]];
      [done|..]; rewrite E in H; discriminate.
  - intros Hm. unfold validate.
    destruct (env !! "close"); [|done].
    destruct (env !! "entries"); [|done].
    destruct (env !! "exits"); [|done].
    by destruct Hm as [?|[?|?]].
Qed.

Lemma validate_missing_names_witness :
  validate {[ "close" := VDataFrame Scenario.close_ab;
              "entries" := VDataFrame Scenario.entries_a ]}
  = Raise missing_names_error.
Proof.
  apply (proj2 (validate_missing_names _)). right; right. reflexivity.
Defined.

(** ** More on the fallback strategy *)

Section FallbackMore.
Import Pandas.

Lemma lookup_raw (env : Env) :
  lookup_name preloaded_globals env "raw" = env !! "raw".
Proof. unfold lookup_name. by destruct (env !! "raw"). Qed.

Lemma lookup_pd (env : Env) (v : pyval) :
  lookup_name preloaded_globals (<["close" := v]> env) "pd"
  = match env !! "pd" with
    | Some pd => Some pd
    | None => Some (VModule "pandas")
    end.
Proof.
  unfold lookup_name. rewrite lookup_insert_ne by done.
  by destruct (env !! "pd").
Qed.

(** The fallback code step by step: where it stops, and what it has
    bound by then. *)
Lemma fallback_exec_cases (env : Env) :
  (exists e, fallback_exec preloaded_globals env = (env, Some e)
             /\ forall raw close,
                  env !! "raw" = Some (VDataFrame raw) ->
                  xs_level1 raw "Close" <> Ok close)
  \/ exists raw close,
       env !! "raw" = Some (VDataFrame raw)
       /\ xs_level1 raw "Close" = Ok close
       /\ let env1 := <["close" := VDataFrame close]> env in
          let blank := full (CBool false) (df_index close) (df_columns close) in
          let env3 :=
            <["exits" := VDataFrame blank]>
              (<["entries" := VDataFrame blank]> env1) in
          (exists e, fallback_exec preloaded_globals env = (env1, Some e)
                     /\ ~ resolves_pandas env)
          \/ (resolves_pandas env /\ nrows close < 11
              /\ fallback_exec preloaded_globals env
                 = (env3, Some index_error))
          \/ (resolves_pandas env /\ 11 <= nrows close
              /\ exists entries,
                   iloc_set_row blank 10 (CBool true) = Ok entries
                   /\ fallback_exec preloaded_globals env
                      = (<["entries" := VDataFrame entries]> env3, None)).
Proof.
  unfold fallback_exec. rewrite lookup_raw.
  destruct (env !! "raw") as [[raw| |]|] eqn:Eraw; simpl;
    try (left; eexists; split; [done|]; intros ? ? [=]).
  destruct (xs_level1 raw "Close") as [close|e] eqn:Exs.
  2: { left. eexists. split; [done|]. intros ? ? [= <-]. by rewrite Exs. }
  right. exists raw, close. split; [done|]. split; [done|].
  cbv zeta. rewrite lookup_pd. unfold resolves_pandas.
  destruct (env !! "pd") as [pd|] eqn:Epd.
  - destruct (is_pandas pd) eqn:Ep; simpl.
    + right. unfold iloc_set_row, nrows. simpl.
      destruct (10 <? length (df_index close))%nat eqn:E.
      * right. apply Nat.ltb_lt in E. split; [done|]. split; [lia|].
        by eexists.
      * left. apply Nat.ltb_ge in E. split; [done|]. split; [lia | done].
    + left. eexists. split; [done|]. congruence.
  - simpl. right. unfold iloc_set_row, nrows. simpl.
    destruct (10 <? length (df_index close))%nat eqn:E.
    * right. apply Nat.ltb_lt in E. split; [done|]. split; [lia|].
      by eexists.
    * left. apply Nat.ltb_ge in E. split; [done|]. split; [lia | done].
Qed.

End FallbackMore.



Section FallbackInLoop.

Context {Portfolio : Type}.
Variable W : World Portfolio.
Variables (total_cash size : Q) (max_retries : Z).

(** X10: on a price table whose Close cross-section has fewer than 11
    rows the fallback cannot place its entry: the failure branch of the
    last attempt then ends the run with the exhausted-retries error,
    without any simulation call, and leaves close and two all-false
    signal tables bound. *)
Theorem short_table_exhausts (code : string) (env : Env) (e : Exn)
    (raw close : DataFrame) :
  env !! "raw" = Some (VDataFrame raw) ->
  Pandas.xs_level1 raw "Close" = Ok close ->
  resolves_pandas env ->
  nrows close < 11 ->
  let le := hint_text (classify_error (exc_msg e)) in
  let blank :=
    Pandas.full (CBool false) (df_index close) (df_columns close) in
  let env' :=
    <["exits" := VDataFrame blank]>
      (<["entries" := VDataFrame blank]>
         (<["close" := VDataFrame close]> env)) in
  handle_failure W total_cash size max_retries max_retries code
    preloaded_globals env e
  = ([EvFailed max_retries e le;
      EvFallback env env' (FbCodeRaised index_error)],
     Done (Raised (exhausted_error max_retries le))).
Proof.
  intros Hraw Hxs Hpd Hn. cbv zeta.
  unfold handle_failure, try_fallback. rewrite Z.eqb_refl.
  destruct (fallback_exec_cases env)
    as [(e' & E & Hno)|(raw' & close' & Hraw' & Hxs' & [(e' & E & Hpd')|[(_ & _ & E)|(_ & Hn' & _)]])].
  - by destruct (Hno raw close).
  - done.
  - rewrite Hraw in Hraw'. injection Hraw' as <-.
    rewrite Hxs in Hxs'. injection Hxs' as <-. by rewrite E.
  - rewrite Hraw in Hraw'. injection Hraw' as <-.
    rewrite Hxs in Hxs'. injection Hxs' as <-. lia.
Qed.

End FallbackInLoop.

Lemma short_table_exhausts_witness :
  snd (handle_failure Short.world 10000 (1 # 5) 3 3 Toy.stmt_raise
         preloaded_globals (initial_env Short.raw_five)
         (mkExn "ValueError" "boom"))
  = Done (Raised (exhausted_error 3 "Error: boom")).
Proof.
  assert (nrows (mkDataFrame (Scenario.days 5) [LStr "A.NS"; LStr "B.NS"]
                   (fun i j =>
                      match [(0, LStr "A.NS"); (1, LStr "B.NS")] !! j with
                      | Some (j', _) => Scenario.price i j'
                      | None => CNaN
                      end)) < 11) as Hn by (vm_compute; lia).
  rewrite (short_table_exhausts Short.world 10000 (1 # 5) 3 Toy.stmt_raise
             (initial_env Short.raw_five) (mkExn "ValueError" "boom")
             Short.raw_five _ eq_refl eq_refl I Hn).
  reflexivity.
Defined.

(** ** More on the runs of [auto_backtest] *)

Lemma Forall_simulation_events (P : Event -> Prop) (sims : list SimArgs) :
  (forall args, P (EvSimulate args)) -> Forall P (EvSimulate <$> sims).
Proof. intros H. apply Forall_fmap, Forall_forall. intros args _. apply H. Qed.

Section RunsMore.

Context {Portfolio : Type}.
Variable prompt_rules : string.
Variable W : World Portfolio.
Variables (user_prompt : string) (total_cash size : Q)
          (period interval : string) (max_retries : Z).

Local Abbreviation run :=
  (auto_backtest prompt_rules W user_prompt total_cash size period
     interval max_retries).
Local Abbreviation body :=
  (attempt_body prompt_rules W user_prompt total_cash size max_retries).
Local Abbreviation loop :=
  (run_attempts prompt_rules W user_prompt total_cash size max_retries).
Local Abbreviation attempt_of := (try_attempt W total_cash size).
Local Abbreviation fallback_of := (try_fallback W total_cash size).
Local Abbreviation Trace := (LoopTrace W total_cash size max_retries).

(** A property of single events holds along a whole run if the two
    [try] blocks only emit events that have it. *)
Section Lifting.

Variable P : Event -> Prop.
Hypothesis P_download : forall ts, P (EvDownload ts).
Hypothesis P_generate : forall attempt prompt, P (EvGenerate attempt prompt).
Hypothesis P_failed : forall attempt e le, P (EvFailed attempt e le).
Hypothesis P_attempt : forall attempt content gl env,
  Forall P (attempt_of attempt (clean_generated_code content) gl env).1.1.1.
Hypothesis P_fallback : forall gl env, Forall P (fallback_of gl env).1.1.

Lemma attempt_body_Forall attempt st : Forall P (body attempt st).1.
Proof.
  unfold attempt_body.
  destruct (chat_completion W attempt "o4-mini" _) as [content|e];
    [|by repeat constructor].
  pose proof (P_attempt attempt content (py_globals st) (env st)) as Htry.
  destruct (try_attempt _ _ _ attempt _ (py_globals st) (env st))
    as [[[evs gl'] env'] [pf|e]];
    simpl in Htry; [by constructor|].
  destruct (is_exception e); [|by constructor].
  unfold handle_failure. destruct (attempt =? max_retries)%Z.
  - pose proof (P_fallback gl' env') as Hfb.
    destruct (try_fallback _ _ _ gl' env') as [[fbevs env''] r].
    simpl in Hfb. simpl. constructor; [done|].
    apply Forall_app. split; [done|]. by constructor.
  - simpl. constructor; [done|]. apply Forall_app. split; [done|].
    by repeat constructor.
Qed.

Lemma run_attempts_Forall attempts st : Forall P (loop attempts st).1.
Proof.
  revert st; induction attempts as [|attempt rest IH]; intros st; simpl;
    [done|].
  pose proof (attempt_body_Forall attempt st) as Hb.
  destruct (body attempt st) as [evs [st'|out]]; simpl in *; [|done].
  specialize (IH st'). destruct (loop rest st') as [evs' out]. simpl in *.
  by apply Forall_app.
Qed.

Lemma auto_backtest_Forall tickers : Forall P (run tickers).1.
Proof.
  unfold auto_backtest. destruct (getenv W _); [|done].
  destruct (read_csv_symbols W _); [|done].
  destruct (yf_download W _ _ _) as [raw|]; [|by repeat constructor].
  pose proof (run_attempts_Forall (py_range 1 (max_retries + 1))
                (mkLoopState None "" preloaded_globals (initial_env raw)))
    as H.
  destruct (loop _ _) as [evs out]. by constructor.
Qed.

End Lifting.

Lemma signal_args_ok (close entries exits : DataFrame) :
  shape entries = shape close -> shape exits = shape close ->
  sim_args_ok total_cash size (signal_args total_cash size close entries exits).
Proof. intros He Hx. by repeat split. Qed.

(** X11: in every run, each simulation call gets signal tables of
    exactly close's shape, whether the triple comes from generated code
    or from the fallback, together with the caller's cash and size, a
    fee of 0.1 percent, percent sizing, and one cash-sharing basket over
    all columns. *)
Theorem simulation_input_consistent (tickers : list string) :
  Forall (simulation_ok total_cash size) (run tickers).1.
Proof.
  apply auto_backtest_Forall; try done.
  - intros attempt content gl env. unfold try_attempt.
    destruct (exec_generated W _ _ _ _) as [[gl' env'] [e|]];
      [by repeat constructor|].
    destruct (validate env') as [[[close entries] exits]|e] eqn:Ev;
      [|by repeat constructor].
    apply validate_ok_inv in Ev as (_ & He & Hx).
    cbn [fst]. constructor; [done|]. constructor; [|done].
    by apply signal_args_ok.
  - intros gl env. unfold try_fallback.
    destruct (fallback_exec gl env) as [env' [e|]] eqn:Efb;
      [by repeat constructor|].
    destruct (fallback_exec_binds _ _ _ Efb)
      as (close & entries & exits & -> & -> & -> & He & Hx).
    cbn [as_frame]. destruct (from_signals W _); cbn [fst];
      (constructor; [done|]); (constructor; [|done]);
      by apply signal_args_ok.
Qed.

(** X12: in every run, the code handed to [exec] for an attempt is
    sanitizer output: it is trimmed and none of its lines carries an
    explanation marker. *)
Theorem executed_code_is_sanitized (tickers : list string) :
  Forall executes_sanitized (run tickers).1.
Proof.
  apply auto_backtest_Forall; try done.
  - intros attempt content gl env.
    destruct (try_attempt _ _ _ _ _ _ _) as [[[evs gl'] env'] r] eqn:E.
    destruct (try_attempt_events _ _ _ _ _ _ _ _ _ _ _ E) as [sims ->].
    simpl. constructor.
    + split; [apply sanitized_prose_free | apply sanitized_trimmed].
    + by apply Forall_simulation_events.
  - intros gl env.
    destruct (try_fallback _ _ _ _ _) as [[fbevs env'] r] eqn:E.
    destruct (try_fallback_events _ _ _ max_retries _ _ _ _ _ "" E)
      as (status & sims & -> & _).
    simpl. constructor; [done|]. by apply Forall_simulation_events.
Qed.

(** X13: the required-name check of the fallback branch (line 307)
    never fails in any run: when the fallback code completes, close,
    entries and exits are bound, so a failing fallback is always a fault
    of the fallback code or of its simulation call. *)
Theorem fallback_names_always_found (tickers : list string) :
  Forall fallback_names_found (run tickers).1.
Proof.
  apply auto_backtest_Forall; try done.
  - intros attempt content gl env.
    destruct (try_attempt _ _ _ _ _ _ _) as [[[evs gl'] env'] r] eqn:E.
    destruct (try_attempt_events _ _ _ _ _ _ _ _ _ _ _ E) as [sims ->].
    simpl. constructor; [done|]. by apply Forall_simulation_events.
  - intros gl env. unfold try_fallback.
    destruct (fallback_exec gl env) as [env' [e|]] eqn:Efb;
      [by repeat constructor|].
    destruct (fallback_exec_binds _ _ _ Efb)
      as (close & entries & exits & -> & -> & -> & _).
    simpl. destruct (from_signals W _); by repeat constructor.
Qed.

End RunsMore.


Section OutcomesMore.

Context {Portfolio : Type}.
Variable prompt_rules : string.
Variable W : World Portfolio.
Variables (user_prompt : string) (total_cash size : Q)
          (period interval : string) (max_retries : Z).

Local Abbreviation run :=
  (auto_backtest prompt_rules W user_prompt total_cash size period
     interval max_retries).
Local Abbreviation body :=
  (attempt_body prompt_rules W user_prompt total_cash size max_retries).
Local Abbreviation loop :=
  (run_attempts prompt_rules W user_prompt total_cash size max_retries).
Local Abbreviation attempt_of := (try_attempt W total_cash size).
Local Abbreviation fallback_of := (try_fallback W total_cash size).
Local Abbreviation Trace := (LoopTrace W total_cash size max_retries).

Lemma loop_trace_not_none attempt gl env tr out :
  Trace attempt gl env tr out ->
  (attempt <= max_retries)%Z -> out <> Returned None.
Proof.
  induction 1 as [attempt gl env Hlt
                 |attempt gl env prompt e0 Hle
                 |attempt gl env prompt code evs gl' env' pf' Hle Htry
                 |attempt gl env prompt code evs gl' env' e0 Hle Htry Hexc
                 |attempt gl env prompt code evs gl' env' e0 tr out
                    Hlt Htry Hexc _ IH
                 |gl env prompt code evs gl' env' e0 fbevs env'' r
                    Htry Hexc Hfb];
    intros Hrange; try done; [lia | apply IH; lia | by destruct r as [[?|]|]].
Qed.

Lemma try_attempt_returned attempt code gl env evs gl' env' pf :
  attempt_of attempt code gl env = (evs, gl', env', Ok pf) ->
  exists pre args, evs = pre ++ [EvSimulate args]
                   /\ from_signals W args = Ok pf.
Proof.
  unfold try_attempt.
  destruct (exec_generated W _ _ _ _) as [[gl1 env1] [e|]]; [done|].
  destruct (validate env1) as [[[close entries] exits]|e]; [|done].
  intros [= <- <- <- Hpf]. by eexists [_], _.
Qed.

Lemma try_fallback_returned gl env fbevs env' pf :
  fallback_of gl env = (fbevs, env', Ok (Some pf)) ->
  exists pre args, fbevs = pre ++ [EvSimulate args]
                   /\ from_signals W args = Ok pf.
Proof.
  unfold try_fallback, caught.
  destruct (fallback_exec gl env) as [env1 [e|]];
    [by destruct (is_exception e)|].
  destruct (env1 !! "close") as [close|]; [|done].
  destruct (env1 !! "entries") as [entries|]; [|done].
  destruct (env1 !! "exits") as [exits|]; [|done].
  destruct (as_frame close); [|done].
  destruct (as_frame entries); [|done].
  destruct (as_frame exits); [|done].
  destruct (from_signals W _) as [pf'|e] eqn:E;
    [|by destruct (is_exception e)].
  intros [= <- <- <-]. by eexists [_], _.
Qed.

Lemma loop_trace_returned attempt gl env tr out pf :
  Trace attempt gl env tr out ->
  out = Returned (Some pf) ->
  exists pre args, tr = pre ++ [EvSimulate args]
                   /\ from_signals W args = Ok pf.
Proof.
  induction 1 as [attempt gl env Hlt
                 |attempt gl env prompt e0 Hle
                 |attempt gl env prompt code evs gl' env' pf' Hle Htry
                 |attempt gl env prompt code evs gl' env' e0 Hle Htry Hexc
                 |attempt gl env prompt code evs gl' env' e0 tr out
                    Hlt Htry Hexc _ IH
                 |gl env prompt code evs gl' env' e0 fbevs env'' r
                    Htry Hexc Hfb];
    intros Hout; try done.
  - injection Hout as ->.
    destruct (try_attempt_returned _ _ _ _ _ _ _ _ Htry)
      as (pre & args & -> & Hs).
    by exists (EvGenerate attempt prompt :: pre), args.
  - destruct (IH Hout) as (pre & args & -> & Hs).
    eexists (EvGenerate attempt prompt :: evs ++ _ :: pre), args.
    split; [|done]. simpl. by rewrite <- app_assoc.
  - destruct r as [[pf'|]|]; [|done..]. injection Hout as ->.
    destruct (try_fallback_returned _ _ _ _ _ Hfb) as (pre & args & -> & Hs).
    eexists (EvGenerate max_retries prompt :: evs ++ _ :: pre), args.
    split; [|done]. simpl. by rewrite <- app_assoc.
Qed.

(** X14: with [max_retries >= 1] a run never ends in [return None]: it
    returns a portfolio or raises. *)
Theorem result_never_none (tickers : list string) :
  (1 <= max_retries)%Z -> (run tickers).2 <> Returned None.
Proof.
  intros Hmax.
  destruct (auto_backtest_trace prompt_rules W user_prompt total_cash size
              period interval max_retries tickers)
    as [[e ->]|[(ts & e & ->)|(symbols & raw & tr & out & _ & _ & -> & Htr)]];
    simpl; try done.
  eapply loop_trace_not_none; [exact Htr | lia].
Qed.

(** X15: with [max_retries <= 0] and key, ticker list and price data
    available, no attempt is made at all: nothing is generated or
    executed, the fallback is not run, and the result is [None]. *)
Theorem no_budget_returns_none (tickers : list string) (key : string)
    (symbols : list (option string)) (raw : DataFrame) :
  (max_retries <= 0)%Z ->
  getenv W "OPENAI_API_KEY" = Some key ->
  read_csv_symbols W "ind_nifty500list.csv" = Ok symbols ->
  yf_download W (ticker_universe symbols) period interval = Ok raw ->
  run tickers = ([EvDownload (ticker_universe symbols)], Returned None).
Proof.
  intros Hmax Hkey Hcsv Hraw. unfold auto_backtest.
  rewrite Hkey, Hcsv, Hraw. by rewrite py_range_nil by lia.
Qed.

(** X16: a portfolio a run returns is the result of the simulation call
    that is the last event of the run. *)
Theorem returned_portfolio_is_simulated (tickers : list string)
    (pf : Portfolio) :
  (run tickers).2 = Returned (Some pf) ->
  exists pre args,
    (run tickers).1 = pre ++ [EvSimulate args]
    /\ from_signals W args = Ok pf.
Proof.
  destruct (auto_backtest_trace prompt_rules W user_prompt total_cash size
              period interval max_retries tickers)
    as [[e ->]|[(ts & e & ->)|(symbols & raw & tr & out & _ & _ & -> & Htr)]];
    simpl; try done.
  intros Hout.
  destruct (loop_trace_returned _ _ _ _ _ _ Htr Hout)
    as (pre & args & -> & Hs).
  by eexists (_ :: pre), args.
Qed.





End OutcomesMore.

Lemma result_never_none_witness :
  (Toy.run Toy.answers_failing 3).2 <> Returned None.
Proof.
  apply (result_never_none "" (Toy.world Toy.answers_failing) "buy low"
           10000 (1 # 5) "24mo" "1d" 3 []).
  lia.
Defined.

Lemma no_budget_returns_none_witness :
  Toy.run Toy.answers_failing 0
  = ([EvDownload ["A.NS"; "B.NS"]], Returned None).
Proof.
  apply (no_budget_returns_none "" (Toy.world Toy.answers_failing) "buy low"
           10000 (1 # 5) "24mo" "1d" 0 [] "sk-test"
           [Some "a"; None; Some "b.ns"; Some "A"] Scenario.raw_ab).
  - lia.
  - reflexivity.
  - reflexivity.
  - reflexivity.
Defined.

Lemma returned_portfolio_is_simulated_witness :
  exists pre args,
    (Toy.run Toy.answers_leftover 3).1 = pre ++ [EvSimulate args]
    /\ Toy.simulate args = Ok 0.
Proof.
  apply (returned_portfolio_is_simulated "" (Toy.world Toy.answers_leftover)
           "buy low" 10000 (1 # 5) "24mo" "1d" 3 [] 0).
  reflexivity.
Defined.


(** The model answers once and is unreachable afterwards: the fault of
    the second call leaves the function as it is. *)
Example generation_fault_leaves_the_run :
  (Toy.run_in Short.world_model_down 3).2
  = Raised (mkExn "APIConnectionError" "connection refused").
Proof. reflexivity. Qed.

Section PromptsMore.

Context {Portfolio : Type}.
Variable prompt_rules : string.
Variable W : World Portfolio.
Variables (user_prompt : string) (total_cash size : Q)
          (period interval : string) (max_retries : Z).

Local Abbreviation run :=
  (auto_backtest prompt_rules W user_prompt total_cash size period
     interval max_retries).
Local Abbreviation loop :=
  (run_attempts prompt_rules W user_prompt total_cash size max_retries).
Local Abbreviation follow := (prompts_follow prompt_rules user_prompt).

Lemma follow_simulations prev le sims rest :
  follow prev le ((EvSimulate <$> sims) ++ rest) <-> follow prev le rest.
Proof. induction sims as [|args sims IH]; simpl; [done | exact IH]. Qed.

(** Behind any prefix the prompts still follow some loop variables. *)
Lemma follow_app prev le l1 l2 :
  follow prev le (l1 ++ l2) -> exists prev' le', follow prev' le' l2.
Proof.
  revert prev le; induction l1 as [|ev l1 IH]; intros prev le; simpl.
  - by eauto.
  - destruct ev; simpl; try apply IH; intros [_ H]; by eapply IH.
Qed.

Lemma follow_fallback prev le gl env fbevs env' r :
  try_fallback W total_cash size gl env = (fbevs, env', r) ->
  follow prev le fbevs.
Proof.
  intros H.
  destruct (try_fallback_events _ _ _ max_retries _ _ _ _ _ "" H)
    as (status & sims & -> & _).
  simpl. rewrite <- (app_nil_r (EvSimulate <$> sims)).
  by apply follow_simulations.
Qed.

Lemma run_attempts_follow attempts st :
  follow (code_str st) (last_error st) (loop attempts st).1.
Proof.
  revert st; induction attempts as [|attempt rest IH]; intros st; simpl;
    [done|].
  unfold attempt_body.
  destruct (chat_completion W attempt "o4-mini" _) as [content|e0];
    [|by destruct (code_str st)].
  destruct (try_attempt _ _ _ attempt _ (py_globals st) (env st))
    as [[[evs gl'] env'] r] eqn:Etry.
  destruct (try_attempt_events _ _ _ _ _ _ _ _ _ _ _ Etry) as [sims ->].
  assert (follow (code_str st) (last_error st)
            (EvGenerate attempt
               match code_str st with
               | Some code =>
                   retry_prompt prompt_rules user_prompt attempt code
                     (last_error st)
               | None => base_prompt prompt_rules user_prompt
               end
             :: EvExec attempt (clean_generated_code content) (env st) env'
             :: (EvSimulate <$> sims))) as Htried.
  { simpl. split; [done|]. rewrite <- (app_nil_r (EvSimulate <$> sims)).
    by apply follow_simulations. }
  destruct r as [pf|e0]; [done|].
  destruct (is_exception e0); [|done].
  unfold handle_failure. destruct (attempt =? max_retries)%Z.
  - destruct (try_fallback _ _ _ gl' env') as [[fbevs env''] r] eqn:Efb.
    assert (follow (code_str st) (last_error st)
              (EvGenerate attempt
                 match code_str st with
                 | Some code =>
                     retry_prompt prompt_rules user_prompt attempt code
                       (last_error st)
                 | None => base_prompt prompt_rules user_prompt
                 end
               :: (EvExec attempt (clean_generated_code content) (env st) env'
                   :: (EvSimulate <$> sims))
                  ++ EvFailed attempt e0
                       (hint_text (classify_error (exc_msg e0)))
                     :: fbevs)) as H.
    { simpl. split; [by destruct (code_str st)|].
      apply follow_simulations. simpl. split; [done|].
      by eapply follow_fallback. }
    done.
  - specialize (IH (mkLoopState (Some (clean_generated_code content))
                      (hint_text (classify_error (exc_msg e0))) gl' env')).
    destruct (run_attempts _ _ _ _ _ _ _ _) as [evs' out]. simpl in *.
    split; [by destruct (code_str st)|].
    rewrite <- app_assoc. apply follow_simulations. simpl. by split.
Qed.

Lemma auto_backtest_follow tickers : follow None "" (run tickers).1.
Proof.
  unfold auto_backtest. destruct (getenv W _); [|done].
  destruct (read_csv_symbols W _); [|done].
  destruct (yf_download W _ _ _) as [raw|]; [|done].
  pose proof (run_attempts_follow (py_range 1 (max_retries + 1))
                (mkLoopState None "" preloaded_globals (initial_env raw)))
    as H.
  by destruct (run_attempts _ _ _ _ _ _ _ _) as [evs out].
Qed.

(** X18: the first generation call of a run is made with the base
    prompt.  And whenever an attempt fails and another generation call
    follows, that call's prompt is the retry prompt built from the
    sanitized code the failed attempt executed and from the classified
    text of its fault. *)
Theorem prompts_carry_feedback (tickers : list string) :
  (forall ts attempt prompt post,
     (run tickers).1 = EvDownload ts :: EvGenerate attempt prompt :: post ->
     prompt = base_prompt prompt_rules user_prompt)
  /\ forall pre attempt code env_in env_out sims e le attempt' prompt post,
       (run tickers).1
       = pre ++ EvExec attempt code env_in env_out
             :: (EvSimulate <$> sims)
             ++ EvFailed attempt e le
             :: EvGenerate attempt' prompt :: post ->
       le = hint_text (classify_error (exc_msg e))
       /\ prompt = retry_prompt prompt_rules user_prompt attempt' code le.
Proof.
  pose proof (auto_backtest_follow tickers) as H. split.
  - intros ts attempt prompt post E. rewrite E in H. by destruct H.
  - intros pre attempt code env_in env_out sims e le attempt' prompt post E.
    rewrite E in H. apply follow_app in H as (prev & le0 & H).
    simpl in H. apply follow_simulations in H. simpl in H.
    by destruct H as (-> & -> & _).
Qed.

End PromptsMore.

Lemma prompts_carry_feedback_witness :
  let r :=
    auto_backtest "" (Toy.world Toy.answers_leftover) "buy low" 10000
      (1 # 5) "24mo" "1d" 3 [] in
  let env_out :=
    (Toy.exec 1 Toy.code_binds_then_raises preloaded_globals
       (initial_env Scenario.raw_ab)).1.2 in
  let prompt :=
    retry_prompt "" "buy low" 2 Toy.code_binds_then_raises "Error: boom" in
  r.1 = take 2 r.1
        ++ EvExec 1 Toy.code_binds_then_raises (initial_env Scenario.raw_ab)
             env_out
           :: (EvSimulate <$> [])
           ++ EvFailed 1 (mkExn "ValueError" "boom") "Error: boom"
           :: EvGenerate 2 prompt :: drop 5 r.1
  /\ "Error: boom"
     = hint_text (classify_error (exc_msg (mkExn "ValueError" "boom"))).
Proof.
  intros r env_out prompt.
  assert (Hrun : r.1 = take 2 r.1
        ++ EvExec 1 Toy.code_binds_then_raises (initial_env Scenario.raw_ab)
             env_out
           :: (EvSimulate <$> [])
           ++ EvFailed 1 (mkExn "ValueError" "boom") "Error: boom"
           :: EvGenerate 2 prompt :: drop 5 r.1) by reflexivity.
  split; [exact Hrun|].
  exact (proj1 (proj2 (prompts_carry_feedback ""
                         (Toy.world Toy.answers_leftover) "buy low" 10000
                         (1 # 5) "24mo" "1d" 3 [])
                  _ _ _ _ _ _ _ _ _ _ _ Hrun)).
Defined.

(** ** The ticker universe *)

Section Tickers.
Import PyStr PyStrFacts PyStrMore.

Lemma elem_of_unique_from (x : string) (seen l : list string) :
  x ∈ unique_from seen l <-> x ∈ l /\ x ∉ seen.
Proof.
  revert seen; induction l as [|y l IH]; intros seen; simpl.
  - split; [by intros ?%elem_of_nil | by intros [?%elem_of_nil _]].
  - case_bool_decide as Hy.
    + rewrite IH, elem_of_cons. split; [tauto|].
      intros [[->|Hx] Hn]; [contradiction | tauto].
    + rewrite elem_of_cons, IH, not_elem_of_cons, elem_of_cons.
      destruct (decide (x = y)) as [->|Hne]; [tauto|]. tauto.
Qed.

Lemma NoDup_unique_from (seen l : list string) : NoDup (unique_from seen l).
Proof.
  revert seen; induction l as [|y l IH]; intros seen; simpl;
    [constructor|].
  case_bool_decide; [done|]. constructor; [|done].
  rewrite elem_of_unique_from. intros [_ Hn]. apply Hn. by left.
Qed.

Lemma with_suffix_ends (sym : string) :
  endswith (with_suffix sym) ".NS" = true.
Proof.
  unfold with_suffix. destruct (endswith sym ".NS") eqn:E; [done|].
  apply endswith_app.
Qed.

(** A common suffix cancels. *)
Lemma app_inj_r (a b t : string) : a +:+ t = b +:+ t -> a = b.
Proof.
  revert b; induction a as [|c a IH]; intros [|d b] E.
  - done.
  - exfalso. apply (f_equal String.length) in E.
    rewrite app_nil, length_app in E. simpl in E. lia.
  - exfalso. apply (f_equal String.length) in E.
    rewrite app_nil, length_app in E. simpl in E. lia.
  - rewrite !app_cons in E. injection E as -> E. f_equal. by apply IH.
Qed.

(** Two symbols get the same ticker only if they are equal, or one is
    the other with the suffix attached. *)
Lemma with_suffix_eq (u1 u2 : string) :
  with_suffix u1 = with_suffix u2 ->
  u1 = u2
  \/ (endswith u1 ".NS" = false /\ u2 = u1 +:+ ".NS")
  \/ (endswith u2 ".NS" = false /\ u1 = u2 +:+ ".NS").
Proof.
  unfold with_suffix.
  destruct (endswith u1 ".NS") eqn:E1, (endswith u2 ".NS") eqn:E2;
    intros E; auto.
  left. by eapply app_inj_r.
Qed.

(** Without repetitions in the image, equal images come from equal
    elements. *)
Lemma NoDup_fmap_elem {A B} (f : A -> B) (l : list A) (x y : A) :
  NoDup (f <$> l) -> x ∈ l -> y ∈ l -> f x = f y -> x = y.
Proof.
  induction l as [|a l IH]; simpl; [by intros _ ?%elem_of_nil|].
  intros [Ha Hl]%NoDup_cons [->|Hx]%elem_of_cons [->|Hy]%elem_of_cons E.
  - done.
  - exfalso. apply Ha. rewrite E. apply list_elem_of_fmap. by exists y.
  - exfalso. apply Ha. rewrite <- E. apply list_elem_of_fmap. by exists x.
  - by apply IH.
Qed.

Lemma elem_of_upper_symbols (symbols : list (option string)) (u : string) :
  u ∈ unique_from [] (upper <$> omap id symbols)
  <-> exists s, Some s ∈ symbols /\ u = upper s.
Proof.
  rewrite elem_of_unique_from, list_elem_of_fmap. split.
  - intros [(s & -> & Hs) _].
    apply list_elem_of_omap in Hs as (o & Ho & Hid). simpl in Hid.
    subst o. by exists s.
  - intros (s & Hs & ->). split; [|by intros ?%elem_of_nil].
    exists s. split; [done|]. apply list_elem_of_omap. by exists (Some s).
Qed.

End Tickers.

(** X19: the ticker universe holds exactly the listed symbols, missing
    entries dropped, in upper case and with the exchange suffix: nothing
    is lost and nothing invented; in particular every ticker ends with
    ".NS". *)
Theorem ticker_universe_members (symbols : list (option string))
    (ticker : string) :
  (ticker ∈ ticker_universe symbols
   <-> exists sym, Some sym ∈ symbols
                   /\ ticker = with_suffix (PyStr.upper sym))
  /\ (ticker ∈ ticker_universe symbols ->
      PyStr.endswith ticker ".NS" = true).
Proof.
  assert (ticker ∈ ticker_universe symbols
          <-> exists sym, Some sym ∈ symbols
                          /\ ticker = with_suffix (PyStr.upper sym)) as H.
  { unfold ticker_universe. rewrite list_elem_of_fmap. split.
    - intros (u & -> & Hu). apply elem_of_unique_from in Hu as [Hu _].
      apply list_elem_of_fmap in Hu as (sym & -> & Hs).
      apply list_elem_of_omap in Hs as (o & Ho & Hid). simpl in Hid.
      subst o. by exists sym.
    - intros (sym & Hs & ->). exists (PyStr.upper sym). split; [done|].
      apply elem_of_unique_from. split; [|by intros ?%elem_of_nil].
      apply list_elem_of_fmap. exists sym. split; [done|].
      apply list_elem_of_omap. by exists (Some sym). }
  split; [exact H|].
  intros (sym & _ & ->)%H. apply with_suffix_ends.
Qed.

Lemma ticker_universe_members_witness :
  "B.NS" ∈ ticker_universe [Some "a"; None; Some "b.ns"; Some "A"]
  /\ PyStr.endswith "B.NS" ".NS" = true.
Proof.
  destruct (ticker_universe_members
              [Some "a"; None; Some "b.ns"; Some "A"] "B.NS") as [H1 H2].
  assert ("B.NS" ∈ ticker_universe [Some "a"; None; Some "b.ns"; Some "A"])
    as Hin.
  { apply H1. exists "b.ns". split; [|reflexivity].
    apply list_elem_of_In. simpl. auto. }
  split; [exact Hin | exact (H2 Hin)].
Defined.

(** X20: the ticker universe has no repeated ticker exactly when the
    list does not name a symbol both without and with the ".NS" suffix,
    that is, when no listed symbol that lacks the suffix is, up to
    case, a listed symbol with the suffix cut off. *)
Theorem ticker_universe_NoDup (symbols : list (option string)) :
  NoDup (ticker_universe symbols)
  <-> forall s1 s2,
        Some s1 ∈ symbols -> Some s2 ∈ symbols ->
        PyStr.endswith (PyStr.upper s1) ".NS" = false ->
        PyStr.upper s2 <> PyStr.upper s1 +:+ ".NS".
Proof.
  unfold ticker_universe. split.
  - intros Hnd s1 s2 H1 H2 Hends E.
    assert (PyStr.upper s1 = PyStr.upper s2) as Heq.
    { eapply (NoDup_fmap_elem with_suffix); [exact Hnd|..].
      - apply elem_of_upper_symbols. by exists s1.
      - apply elem_of_upper_symbols. by exists s2.
      - unfold with_suffix at 1. rewrite Hends.
        unfold with_suffix. rewrite E.
        by rewrite PyStrMore.endswith_app. }
    rewrite <- Heq in E.
    apply (f_equal String.length) in E.
    rewrite PyStrMore.length_app in E. simpl in E. lia.
  - intros Hsym.
    apply NoDup_fmap_2_strong; [|apply NoDup_unique_from].
    intros u1 u2 (s1 & H1 & ->)%elem_of_upper_symbols
      (s2 & H2 & ->)%elem_of_upper_symbols E.
    destruct (with_suffix_eq _ _ E) as [Heq|[[Hends E']|[Hends E']]].
    + done.
    + by destruct (Hsym s1 s2 H1 H2 Hends).
    + by destruct (Hsym s2 s1 H2 H1 Hends).
Qed.

(** A list with a gap and with one symbol in both cases, but none both
    with and without the suffix. *)
Lemma ticker_universe_NoDup_witness :
  NoDup (ticker_universe [Some "a"; None; Some "b.ns"; Some "A"]).
Proof.
  apply (proj2 (ticker_universe_NoDup
                  [Some "a"; None; Some "b.ns"; Some "A"])).
  intros s1 s2 H1 H2.
  apply list_elem_of_In in H1, H2. simpl in H1, H2.
  destruct H1 as [[= <-]|[[=]|[[= <-]|[[= <-]|[]]]]];
    destruct H2 as [[= <-]|[[=]|[[= <-]|[[= <-]|[]]]]];
    vm_compute; congruence.
Defined.

(** A symbol listed without and with the suffix gives its ticker
    twice. *)
Example ticker_universe_repeats :
  ticker_universe [Some "a"; Some "a.ns"] = ["A.NS"; "A.NS"].
Proof. reflexivity. Qed.

(** X21: the classifier's category is ShapeMismatch exactly for the
    messages containing both "shape" and "doesn't match", and Other
    exactly for the messages that match no rule. *)
Theorem classify_error_categories (m : string) :
  (category (classify_error m) = ShapeMismatch
   <-> PyStr.contains "shape" m = true
       /\ PyStr.contains "doesn't match" m = true)
  /\ (category (classify_error m) = Other <-> matches_no_rule m).
Proof.
  unfold classify_error, matches_no_rule, classifier_rules.
  rewrite !Forall_cons, Forall_nil.
  destruct (PyStr.contains "shape" m), (PyStr.contains "doesn't match" m),
    (PyStr.contains "KeyError" m), (PyStr.contains "None of" m),
    (PyStr.contains "YFPricesMissingError" m),
    (PyStr.contains "No data found" m), (PyStr.contains "SyntaxError" m);
    cbn; intuition discriminate.
Qed.

Lemma classify_error_categories_witness :
  category (classify_error adversarial_message) = ShapeMismatch
  /\ category (classify_error "division by zero") = Other.
Proof.
  split.
  - apply (proj1 (classify_error_categories adversarial_message)).
    split; reflexivity.
  - apply (proj2 (classify_error_categories "division by zero")).
    repeat constructor.
Defined.
